(** * ibkr2tv: the IBKR activity-statement converter ([convert.py])

    A shallow embedding of [convert.py] and the properties of its section
    parser, its four record converters and its merger.

    Conventions of the embedding.
    - A Python [str] is a [string] holding the UTF-8 encoding of the text
      (the files are decoded from UTF-8, so every [str] of the program has
      one).  Byte-wise lexicographic order on UTF-8 coincides with Python's
      code-point order on [str].
    - A Python [float] is a [spec_float] of the binary64 format
      (IEEE 754 double, a single NaN).
    - A Python [dict] with [str] keys is a [gmap string _]; [d.get(k)] is
      [d !! k], [d[k]] is [getitem d k] and raises [KeyError] on a missing
      key.
    - Exceptions are the [Raise] results of the error monad [result];
      [x ← c; k] runs [c] and passes its value on, or re-raises. *)

From Stdlib Require Import ZArith String Ascii List Permutation.
From Stdlib Require Import SpecFloat.
From stdpp Require Import gmap strings pretty list sorting.

#[global] Set Warnings "-clear-no-such-hyp".

Open Scope string_scope.

(** ** Exceptions *)

Inductive exn : Type :=
  | KeyError (key : string)
  | ValueError (arg : string).

Inductive result (A : Type) : Type :=
  | Ok (a : A)
  | Raise (e : exn).

Arguments Ok {A} a.
Arguments Raise {A} e.

#[global] Instance result_ret : MRet result := fun A a => Ok a.

#[global] Instance result_bind : MBind result := fun A B k c =>
  match c with
  | Ok a => k a
  | Raise e => Raise e
  end.

Definition raises {A : Type} (c : result A) : Prop :=
  exists e, c = Raise e.

(** ** Python builtins used by the program *)

Module Py.

(** Binary64 parameters. *)
Definition prec : Z := 53.
Definition emax : Z := 1024.

(** [abs(x)] on floats. *)
Definition abs (x : spec_float) : spec_float := SFabs x.

(** [x > 0], [x <= 0], [x >= 0] against the integer literal [0]. *)
Definition zero : spec_float := S754_zero false.
Definition gt0 (x : spec_float) : bool := SFltb zero x.
Definition le0 (x : spec_float) : bool := SFleb x zero.
Definition ge0 (x : spec_float) : bool := SFleb zero x.

(** [x == y] on floats. *)
Definition float_eq (x y : spec_float) : bool := SFeqb x y.

(** Byte code of a character. *)
Definition code (c : ascii) : N := N_of_ascii c.

(** One white-space character at the head of a UTF-8 byte list
    ([str.isspace]): U+0009..U+000D, U+001C..U+0020, U+0085, U+00A0,
    U+1680, U+2000..U+200A, U+2028, U+2029, U+202F, U+205F, U+3000.
    Returns the bytes after it. *)
Definition space1 (b : N) : bool :=
  ((9 <=? b) && (b <=? 13) || (28 <=? b) && (b <=? 32))%N.

Definition drop_space (l : list ascii) : option (list ascii) :=
  match l with
  | [] => None
  | c1 :: l1 =>
    if space1 (code c1) then Some l1 else
    match l1 with
    | [] => None
    | c2 :: l2 =>
      if ((code c1 =? 194) && ((code c2 =? 133) || (code c2 =? 160)))%N
      then Some l2 else
      match l2 with
      | [] => None
      | c3 :: l3 =>
        let b1 := code c1 in let b2 := code c2 in let b3 := code c3 in
        if ((b1 =? 225) && (b2 =? 154) && (b3 =? 128)
            || (b1 =? 226) && (b2 =? 128)
               && ((128 <=? b3) && (b3 <=? 138)
                   || (b3 =? 168) || (b3 =? 169) || (b3 =? 175))
            || (b1 =? 226) && (b2 =? 129) && (b3 =? 159)
            || (b1 =? 227) && (b2 =? 128) && (b3 =? 128))%N
        then Some l3 else None
      end
    end
  end.

(** The same, at the end of the text: the argument is the reversed byte
    list, so the last byte of the character comes first. *)
Definition drop_space_rev (l : list ascii) : option (list ascii) :=
  match l with
  | [] => None
  | c1 :: l1 =>
    if space1 (code c1) then Some l1 else
    match l1 with
    | [] => None
    | c2 :: l2 =>
      match drop_space [c2; c1] with
      | Some [] => Some l2
      | _ =>
        match l2 with
        | [] => None
        | c3 :: l3 =>
          match drop_space [c3; c2; c1] with
          | Some [] => Some l3
          | _ => None
          end
        end
      end
    end
  end.

(** Strip from one end.  [n] bounds the number of characters removed and
    is the length of the text, which is always enough. *)
Fixpoint strip_with (drop1 : list ascii -> option (list ascii))
    (n : nat) (l : list ascii) : list ascii :=
  match n with
  | O => l
  | S n' =>
    match drop1 l with
    | Some l' => strip_with drop1 n' l'
    | None => l
    end
  end.

(** [s.strip()]. *)
Definition strip (s : string) : string :=
  let l := list_ascii_of_string s in
  let l1 := strip_with drop_space (List.length l) l in
  let l2 := strip_with drop_space_rev (List.length l1) (List.rev l1) in
  string_of_list_ascii (List.rev l2).

(** [s.replace(old, new)] for a non-empty [old]: every non-overlapping
    occurrence, left to right.  [skip] counts the bytes of a matched
    occurrence that are still to be dropped. *)
Fixpoint replace_go (old new : string) (skip : nat) (s : string) : string :=
  match s with
  | EmptyString => EmptyString
  | String c s' =>
    match skip with
    | S k => replace_go old new k s'
    | O =>
      if String.prefix old s
      then new +:+ replace_go old new (String.length old - 1) s'
      else String c (replace_go old new 0 s')
    end
  end.

Definition replace (old new s : string) : string := replace_go old new 0 s.

(** [str(n)] for a non-negative integer. *)
Definition str_of_nat (n : nat) : string := pretty n.

End Py.

(** ** A reference instance of [float(s)]

    The converters below take Python's [float] constructor as a parameter
    [float : string -> option spec_float] ([None] is [ValueError]), and
    every general theorem holds for any such function.  [py_float] is the
    instance used in the examples: Python's grammar on ASCII text

      [sign] (digitpart ["." [digitpart]] | "." digitpart) [exponent]
      | [sign] ("inf" | "infinity" | "nan")

    with [digitpart ::= digit (["_"] digit)*], letters in either case,
    leading and trailing ASCII white space ignored, and the decimal value
    rounded to the nearest binary64, ties to even.  (Python also accepts
    non-ASCII decimal digits; [py_float] raises on them.) *)

Module PyFloat.

Definition digit (c : ascii) : option N :=
  let b := Py.code c in
  if ((48 <=? b) && (b <=? 57))%N then Some (b - 48)%N else None.

Definition lower (c : ascii) : ascii :=
  let b := Py.code c in
  if ((65 <=? b) && (b <=? 90))%N then ascii_of_N (b + 32) else c.

(** The rest of a [digitpart] after its first digit: digits read and
    bytes left. *)
Fixpoint digits_tail (l : list ascii) : list N * list ascii :=
  match l with
  | [] => ([], [])
  | c :: l1 =>
    match digit c with
    | Some d => let '(ds, r) := digits_tail l1 in (d :: ds, r)
    | None =>
      if Ascii.eqb c "_" then
        match l1 with
        | c2 :: l2 =>
          match digit c2 with
          | Some d => let '(ds, r) := digits_tail l2 in (d :: ds, r)
          | None => ([], l)
          end
        | [] => ([], l)
        end
      else ([], l)
    end
  end.

(** An optional [digitpart]: no digits when the text does not start
    with one. *)
Definition digitpart (l : list ascii) : list N * list ascii :=
  match l with
  | c :: l1 =>
    match digit c with
    | Some d => let '(ds, r) := digits_tail l1 in (d :: ds, r)
    | None => ([], l)
    end
  | [] => ([], [])
  end.

Definition sign (l : list ascii) : bool * list ascii :=
  match l with
  | c :: l1 =>
    if Ascii.eqb c "-" then (true, l1)
    else if Ascii.eqb c "+" then (false, l1)
    else (false, l)
  | [] => (false, [])
  end.

Definition value_of_digits (ds : list N) : N :=
  fold_left (fun acc d => (10 * acc + d)%N) ds 0%N.

(** The binary64 nearest to [(-1)^s * m * 10^e]. *)
Definition of_decimal (s : bool) (m : N) (e : Z) : spec_float :=
  match m with
  | N0 => S754_zero s
  | Npos p =>
    if (0 <=? e)%Z
    then binary_normalize Py.prec Py.emax
           (SpecFloat.cond_Zopp s (Zpos p * 10 ^ e)) 0 false
    else SFdiv Py.prec Py.emax
           (S754_finite s p 0)
           (S754_finite false (Z.to_pos (10 ^ (- e))) 0)
  end.

(** The optional exponent; [None] when an exponent is started and not
    completed. *)
Definition exponent (l : list ascii) : option (Z * list ascii) :=
  match l with
  | c :: l1 =>
    if Ascii.eqb (lower c) "e" then
      let '(s, l2) := sign l1 in
      match digitpart l2 with
      | ([], _) => None
      | (ds, r) =>
        Some (SpecFloat.cond_Zopp s (Z.of_N (value_of_digits ds)), r)
      end
    else Some (0%Z, l)
  | [] => Some (0%Z, [])
  end.

Definition number (s : bool) (l : list ascii) : option spec_float :=
  let '(ip, l1) := digitpart l in
  let '(fp, l2) :=
    match l1 with
    | c :: l1' => if Ascii.eqb c "." then digitpart l1' else ([], l1)
    | [] => ([], [])
    end in
  match (ip ++ fp)%list with
  | [] => None
  | ds =>
    match exponent l2 with
    | Some (e, []) =>
      Some (of_decimal s (value_of_digits ds) (e - Z.of_nat (List.length fp)))
    | _ => None
    end
  end.

Definition special (s : bool) (l : list ascii) : option spec_float :=
  let w := string_of_list_ascii (List.map lower l) in
  if String.eqb w "inf" || String.eqb w "infinity" then Some (S754_infinity s)
  else if String.eqb w "nan" then Some S754_nan
  else None.

Definition ascii_space (c : ascii) : bool :=
  let b := Py.code c in ((9 <=? b) && (b <=? 13) || (b =? 32))%N.

Fixpoint skip_spaces (l : list ascii) : list ascii :=
  match l with
  | c :: l1 => if ascii_space c then skip_spaces l1 else l
  | [] => []
  end.

Definition trim (l : list ascii) : list ascii :=
  List.rev (skip_spaces (List.rev (skip_spaces l))).

Definition py_float (s : string) : option spec_float :=
  let '(sg, l) := sign (trim (list_ascii_of_string s)) in
  match special sg l with
  | Some x => Some x
  | None => number sg l
  end.

End PyFloat.

Definition py_float := PyFloat.py_float.

(** ** The program: [convert.py] *)

(** [d[k]]. *)
Definition getitem (d : gmap string string) (k : string) : result string :=
  match d !! k with
  | Some v => Ok v
  | None => Raise (KeyError k)
  end.

(** Truth value of a [str]: non-empty. *)
Definition truthy (s : string) : bool := negb (String.eqb s "").

(** [dict(pairs)]: a later pair overwrites an earlier one with its key. *)
Definition dict_of_pairs (pairs : list (string * string)) : gmap string string :=
  fold_left (fun d kv => <[kv.1 := kv.2]> d) pairs ∅.

(** [get_tv_symbol(symbol, currency, symbol_exchange_map)]. *)
Definition get_tv_symbol (symbol currency : string)
    (symbol_exchange_map : gmap string string) : string :=
  if String.eqb currency "HKD" then "HKEX:" +:+ symbol
  else
    let exchange := default "NASDAQ" (symbol_exchange_map !! symbol) in
    exchange +:+ ":" +:+ symbol.

(** *** [parse_activity_statement] *)

(** The renaming loop over [raw_headers] (lines 86-95), from the state
    [seen_headers], [deduped] it has reached. *)
Fixpoint dedupe_loop (raw_headers : list string)
    (seen_headers : gmap string nat) (deduped : list string) : list string :=
  match raw_headers with
  | [] => deduped
  | h :: rest =>
    match seen_headers !! h with
    | Some n =>
      let n' := S n in
      dedupe_loop rest (<[h := n']> seen_headers)
        (deduped ++ [h +:+ "_" +:+ Py.str_of_nat n'])%list
    | None =>
      dedupe_loop rest (<[h := 1]> seen_headers) (deduped ++ [h])%list
    end
  end.

Definition dedupe_headers (raw_headers : list string) : list string :=
  dedupe_loop raw_headers ∅ [].

(** [while len(data) < len(current_headers): data.append("")]. *)
Definition pad_data (current_headers data : list string) : list string :=
  (data ++ replicate (List.length current_headers - List.length data) "")%list.

(** [dict(zip(current_headers, data))] after the padding (lines 99-103). *)
Definition make_record (current_headers data : list string) : gmap string string :=
  dict_of_pairs (List.combine current_headers (pad_data current_headers data)).

(** The variables of the parsing loop. *)
Record parser_state : Type := {
  sections : gmap string (list (gmap string string));
  current_section : option string;
  current_headers : option (list string)
}.

Definition parser_init : parser_state :=
  {| sections := ∅; current_section := None; current_headers := None |}.

(** One iteration of [for row in reader]. *)
Definition parse_row (st : parser_state) (row : list string) : result parser_state :=
  match row with
  | c0 :: c1 :: fields =>
    let section := Py.strip c0 in
    let row_type := Py.strip c1 in
    if String.eqb row_type "Header" then
      let deduped := dedupe_headers fields in
      Ok {| sections :=
              match sections st !! section with
              | Some _ => sections st
              | None => <[section := []]> (sections st)
              end;
            current_section := Some section;
            current_headers := Some deduped |}
    else if String.eqb row_type "Data"
            && bool_decide (current_section st = Some section)
    then
      match current_headers st with
      | Some (h :: hs) =>
        let record := make_record (h :: hs) fields in
        match sections st !! section with
        | Some l =>
          Ok {| sections := <[section := (l ++ [record])%list]> (sections st);
                current_section := current_section st;
                current_headers := current_headers st |}
        | None => Raise (KeyError section)
        end
      | _ => Ok st
      end
    else Ok st
  | _ => Ok st
  end.

Fixpoint parse_rows (st : parser_state) (rows : list (list string)) : result parser_state :=
  match rows with
  | [] => Ok st
  | row :: rest => st' ← parse_row st row; parse_rows st' rest
  end.

(** [parse_activity_statement(filepath)], on the rows [csv.reader] yields
    for the file. *)
Definition parse_activity_statement (rows : list (list string))
    : result (gmap string (list (gmap string string))) :=
  st ← parse_rows parser_init rows; Ok (sections st).

(** *** The converters *)

(** A cell of an output row: text or a number. *)
Inductive cell : Type :=
  | Str (s : string)
  | Num (x : spec_float).

(** An output row: the dict with the keys of [TV_FIELDNAMES]. *)
Record tv_row : Type := {
  Symbol : string;
  Side : string;
  Qty : spec_float;
  Fill_Price : string;
  Commission : cell;
  Closing_Time : string
}.

(** [rows = []; for r in records: ...; return rows], where an iteration
    raises, goes on to the next record ([None]) or appends one row. *)
Fixpoint for_each {A B : Type} (body : A -> result (option B))
    (records : list A) (rows : list B) : result (list B) :=
  match records with
  | [] => Ok rows
  | r :: rest =>
    match body r with
    | Raise e => Raise e
    | Ok None => for_each body rest rows
    | Ok (Some row) => for_each body rest (rows ++ [row])%list
    end
  end.

Section Converters.

(** Python's [float(s)]; [None] stands for [ValueError]. *)
Variable float : string -> option spec_float.

Definition to_float (s : string) : result spec_float :=
  match float s with
  | Some x => Ok x
  | None => Raise (ValueError s)
  end.

Definition trades_body (symbol_exchange_map : gmap string string)
    (r : gmap string string) : result (option tv_row) :=
  if negb (bool_decide (r !! "DataDiscriminator" = Some "Order")) then Ok None
  else if negb (bool_decide (r !! "资产分类" = Some "股票")) then Ok None
  else
    v ← getitem r "代码";
    let symbol := Py.strip v in
    v ← getitem r "货币";
    let currency := Py.strip v in
    let tv_symbol := get_tv_symbol symbol currency symbol_exchange_map in
    v ← getitem r "数量";
    qty_raw ← to_float v;
    let side := if Py.gt0 qty_raw then "Buy" else "Sell" in
    let qty := Py.abs qty_raw in
    v ← getitem r "交易价格";
    let price := Py.strip v in
    v ← getitem r "佣金/税";
    commission ←
      (if truthy (Py.strip v)
       then x ← to_float v; Ok (Num (Py.abs x))
       else Ok (Str ""));
    v ← getitem r "日期/时间";
    let dt := Py.replace ", " " " (Py.strip v) in
    Ok (Some {| Symbol := tv_symbol; Side := side; Qty := qty;
                Fill_Price := price; Commission := commission;
                Closing_Time := dt |}).

Definition convert_trades (records : list (gmap string string))
    (symbol_exchange_map : gmap string string) : result (list tv_row) :=
  for_each (trades_body symbol_exchange_map) records [].

(** [dt = r.get(key, "").strip(); if dt: dt += " 0:00:00"]. *)
Definition midnight (r : gmap string string) (key : string) : string :=
  let dt := Py.strip (default "" (r !! key)) in
  if truthy dt then dt +:+ " 0:00:00" else dt.

Definition cash_row (side : string) (qty : spec_float) (dt : string) : tv_row :=
  {| Symbol := "$CASH"; Side := side; Qty := qty;
     Fill_Price := ""; Commission := Str ""; Closing_Time := dt |}.

Definition cash_body (r : gmap string string) : result (option tv_row) :=
  let desc := Py.strip (default "" (r !! "描述")) in
  if negb (truthy desc) then Ok None
  else
    let amount_str := Py.strip (default "" (r !! "金额")) in
    if negb (truthy amount_str) then Ok None
    else
      amount ← to_float amount_str;
      let '(side, amount) :=
        if Py.gt0 amount then ("Deposit", amount)
        else ("Withdrawal", Py.abs amount) in
      let dt := midnight r "结算日期" in
      Ok (Some (cash_row side amount dt)).

Definition convert_cash_transactions (records : list (gmap string string))
    (side_label : string) : result (list tv_row) :=
  for_each cash_body records [].

Definition dividends_body (r : gmap string string) : result (option tv_row) :=
  let desc := Py.strip (default "" (r !! "描述")) in
  if negb (truthy desc) then Ok None
  else
    let amount_str := Py.strip (default "" (r !! "金额")) in
    if negb (truthy amount_str) then Ok None
    else
      amount ← to_float amount_str;
      if Py.le0 amount then Ok None
      else
        let dt := midnight r "日期" in
        Ok (Some (cash_row "Dividend" amount dt)).

Definition convert_dividends (records : list (gmap string string))
    : result (list tv_row) :=
  for_each dividends_body records [].

Definition taxes_body (r : gmap string string) : result (option tv_row) :=
  let desc := Py.strip (default "" (r !! "描述")) in
  if negb (truthy desc) then Ok None
  else
    let amount_str := Py.strip (default "" (r !! "金额")) in
    if negb (truthy amount_str) then Ok None
    else
      amount ← to_float amount_str;
      if Py.ge0 amount then Ok None
      else
        let dt := midnight r "日期" in
        Ok (Some (cash_row "Taxes and fees" (Py.abs amount) dt)).

Definition convert_taxes (records : list (gmap string string))
    : result (list tv_row) :=
  for_each taxes_body records [].

(** [process_activity_statement(filepath, symbol_exchange_map)], on the
    rows of the file. *)
Definition process_activity_statement (file : list (list string))
    (symbol_exchange_map : gmap string string) : result (list tv_row) :=
  sections ← parse_activity_statement file;
  let rows := [] in
  r1 ← convert_trades (default [] (sections !! "交易")) symbol_exchange_map;
  let rows := (rows ++ r1)%list in
  r2 ← convert_cash_transactions (default [] (sections !! "存款和取款")) "";
  let rows := (rows ++ r2)%list in
  r3 ← convert_dividends (default [] (sections !! "股息"));
  let rows := (rows ++ r3)%list in
  r4 ← convert_taxes (default [] (sections !! "代扣税"));
  let rows := (rows ++ r4)%list in
  Ok rows.

(** The loop of [main] over the input files:
    [all_rows.extend(process_activity_statement(filepath, ...))]. *)
Fixpoint collect_rows (inputs : list (list (list string)))
    (symbol_exchange_map : gmap string string) (all_rows : list tv_row)
    : result (list tv_row) :=
  match inputs with
  | [] => Ok all_rows
  | file :: rest =>
    rows ← process_activity_statement file symbol_exchange_map;
    collect_rows rest symbol_exchange_map (all_rows ++ rows)%list
  end.

End Converters.

(** *** The merger (the end of [main]) *)

(** The deduplication key
    [(r["Symbol"], r["Side"], r["Qty"], r["Fill Price"], r["Closing Time"])]. *)
Definition key : Type := string * string * spec_float * string * string.

Definition row_key (r : tv_row) : key :=
  (Symbol r, Side r, Qty r, Fill_Price r, Closing_Time r).

(** [k1 == k2] on keys: component-wise [==].  Every row and every number
    in it is built afresh by a converter, so two rows of [all_rows] never
    share an object and tuple comparison never takes its identity
    shortcut; in particular a NaN quantity equals no other. *)
Definition key_eq (k1 k2 : key) : bool :=
  let '(sy1, sd1, q1, fp1, ct1) := k1 in
  let '(sy2, sd2, q2, fp2, ct2) := k2 in
  String.eqb sy1 sy2 && String.eqb sd1 sd2 && Py.float_eq q1 q2
  && String.eqb fp1 fp2 && String.eqb ct1 ct2.

(** [k in seen].  The set is the list of its elements: membership is by
    [==], which is not structural equality on numbers. *)
Definition key_in (k : key) (seen : list key) : bool :=
  existsb (fun k' => key_eq k' k) seen.

(** The loop [for r in all_rows] (lines 270-276) from the state [seen],
    [deduped] it has reached. *)
Fixpoint dedup_loop (all_rows : list tv_row) (seen : list key)
    (deduped : list tv_row) : list tv_row :=
  match all_rows with
  | [] => deduped
  | r :: rest =>
    let k := row_key r in
    if negb (key_in k seen)
    then dedup_loop rest (k :: seen) (deduped ++ [r])%list
    else dedup_loop rest seen deduped
  end.

Definition dedup (all_rows : list tv_row) : list tv_row :=
  dedup_loop all_rows [] [].

(** [lambda r: r["Closing Time"] or ""]. *)
Definition sort_key (r : tv_row) : string :=
  if truthy (Closing_Time r) then Closing_Time r else "".

(** [deduped.sort(key=...)]: [list.sort] is stable and compares keys with
    [<] alone.  Modelled by stable insertion: [x], which stood before all
    of [l], goes in front of the first element whose key is not smaller. *)
Fixpoint insert_row (x : tv_row) (l : list tv_row) : list tv_row :=
  match l with
  | [] => [x]
  | y :: l' =>
    if String.ltb (sort_key y) (sort_key x)
    then y :: insert_row x l'
    else x :: y :: l'
  end.

Fixpoint sort_rows (l : list tv_row) : list tv_row :=
  match l with
  | [] => []
  | x :: l' => insert_row x (sort_rows l')
  end.

(** What [main] writes, from the rows gathered over all files. *)
Definition merge (all_rows : list tv_row) : list tv_row :=
  sort_rows (dedup all_rows).

(** [main], on the contents of the input files and the exchange map: the
    rows handed to the CSV writer. *)
Definition main (float : string -> option spec_float)
    (inputs : list (list (list string)))
    (symbol_exchange_map : gmap string string) : result (list tv_row) :=
  all_rows ← collect_rows float inputs symbol_exchange_map [];
  Ok (merge all_rows).


(** *** [build_symbol_exchange_map] *)

(** [EXCHANGE_MAP]. *)
Definition EXCHANGE_MAP : gmap string string :=
  dict_of_pairs
    [("NASDAQ", "NASDAQ"); ("NYSE", "NYSE"); ("AMEX", "AMEX");
     ("SEHK", "HKEX"); ("ARCA", "AMEX")].

(** A row of [csv.DictReader] binds the field names of the header of its
    file, each to the cell of the row or, when the row is too short to
    have that cell, to [None].  [row.get(k, "")] is then the cell, [None],
    or the empty string when the file has no column [k]. *)
Definition flex_get (row : gmap string (option string)) (k : string)
    : option string :=
  match row !! k with
  | Some cell => cell
  | None => Some ""
  end.

(** One iteration of [for row in reader] (lines 44-48).  The result [None]
    is the [AttributeError] of [None.strip()]. *)
Definition flex_row (mapping : gmap string string)
    (row : gmap string (option string)) : option (gmap string string) :=
  match flex_get row "Symbol" with
  | None => None
  | Some s =>
    let sym := Py.strip s in
    match flex_get row "ListingExchange" with
    | None => None
    | Some e =>
      let ex := Py.strip e in
      if truthy sym && truthy ex && negb (bool_decide (is_Some (mapping !! sym)))
      then
        let tv_ex := default ex (EXCHANGE_MAP !! ex) in
        Some (<[sym := tv_ex]> mapping)
      else Some mapping
    end
  end.

Fixpoint flex_rows (mapping : gmap string string)
    (reader : list (gmap string (option string))) : option (gmap string string) :=
  match reader with
  | [] => Some mapping
  | row :: rest =>
    match flex_row mapping row with
    | Some mapping' => flex_rows mapping' rest
    | None => None
    end
  end.

Fixpoint flex_loop (mapping : gmap string string)
    (flex_files : list (list (gmap string (option string))))
    : option (gmap string string) :=
  match flex_files with
  | [] => Some mapping
  | reader :: rest =>
    match flex_rows mapping reader with
    | Some mapping' => flex_loop mapping' rest
    | None => None
    end
  end.

(** [build_symbol_exchange_map(flex_files)], on the rows [csv.DictReader]
    yields for each file. *)
Definition build_symbol_exchange_map
    (flex_files : list (list (gmap string (option string))))
    : option (gmap string string) :=
  flex_loop ∅ flex_files.

(** *** The report of [main] (lines 264-265) *)

(** [r["Side"] in ("Buy", "Sell")]. *)
Definition in_buy_sell (r : tv_row) : bool :=
  String.eqb (Side r) "Buy" || String.eqb (Side r) "Sell".

(** [sum(1 for r in rows if r["Side"] in ("Buy", "Sell"))]. *)
Definition count_trades (rows : list tv_row) : nat :=
  List.length (List.filter in_buy_sell rows).

(** [sum(1 for r in rows if r["Side"] not in ("Buy", "Sell"))]. *)
Definition count_cash (rows : list tv_row) : nat :=
  List.length (List.filter (fun r => negb (in_buy_sell r)) rows).

(** * Vocabulary of the properties *)

(** A trades record that passes both filters of [convert_trades]. *)
Definition stock_order (r : gmap string string) : Prop :=
  r !! "DataDiscriminator" = Some "Order" /\ r !! "资产分类" = Some "股票".

#[global] Instance stock_order_dec r : Decision (stock_order r).
Proof. unfold stock_order. apply _. Defined.

(** The fields [convert_trades] reads with [r[...]]. *)
Definition trade_keys : list string :=
  ["代码"; "货币"; "数量"; "交易价格"; "佣金/税"; "日期/时间"].

(** The numeric fields of a trades record parse wherever they are read:
    the quantity always, the commission when it is not blank. *)
Definition trade_numbers_ok (float : string -> option spec_float)
    (r : gmap string string) : Prop :=
  (forall v, r !! "数量" = Some v -> is_Some (float v))
  /\ (forall v, r !! "佣金/税" = Some v ->
        truthy (Py.strip v) = true -> is_Some (float v)).

(** A trades record on which an iteration of [convert_trades] cannot
    raise: every field is there and the numbers parse. *)
Definition trade_fields_ok (float : string -> option spec_float)
    (r : gmap string string) : Prop :=
  Forall (fun k => is_Some (r !! k)) trade_keys /\ trade_numbers_ok float r.

(** [x < 0] on floats. *)
Definition lt0 (x : spec_float) : bool := SFltb x Py.zero.

(** The sign rule between a trades record and the row emitted for it. *)
Definition sign_rule (float : string -> option spec_float)
    (r : gmap string string) (row : tv_row) : Prop :=
  exists v q, r !! "数量" = Some v /\ float v = Some q
    /\ (Py.gt0 q = true -> Side row = "Buy")
    /\ (lt0 q = true -> Side row = "Sell")
    /\ Qty row = Py.abs q.

(** The description and amount cells the three cash converters test. *)
Definition desc_of (r : gmap string string) : string :=
  Py.strip (default "" (r !! "描述")).

Definition amount_str_of (r : gmap string string) : string :=
  Py.strip (default "" (r !! "金额")).

(** A cash record that passes the two non-empty filters. *)
Definition cash_eligible (r : gmap string string) : Prop :=
  truthy (desc_of r) = true /\ truthy (amount_str_of r) = true.

(** The four sections [process_activity_statement] converts, with their
    names in the statement and their converters. *)
Inductive section_kind : Type := Trades | Cash | Dividends | Taxes.

Definition section_name (k : section_kind) : string :=
  match k with
  | Trades => "交易"
  | Cash => "存款和取款"
  | Dividends => "股息"
  | Taxes => "代扣税"
  end.

Definition convert (float : string -> option spec_float) (k : section_kind)
    (m : gmap string string) (records : list (gmap string string))
    : result (list tv_row) :=
  match k with
  | Trades => convert_trades float records m
  | Cash => convert_cash_transactions float records ""
  | Dividends => convert_dividends float records
  | Taxes => convert_taxes float records
  end.

(** A record that passes the filters of its converter and whose quantity
    or amount cell is not a number. *)
Definition bad_number (float : string -> option spec_float) (k : section_kind)
    (r : gmap string string) : Prop :=
  match k with
  | Trades => stock_order r /\ exists v, r !! "数量" = Some v /\ float v = None
  | _ => cash_eligible r /\ float (amount_str_of r) = None
  end.

(** Sample statement rows. *)
Definition trade_header : list string :=
  ["DataDiscriminator"; "资产分类"; "货币"; "代码"; "日期/时间"; "数量";
   "交易价格"; "佣金/税"].

Definition trade_record (qty commission : string) : gmap string string :=
  make_record (dedupe_headers trade_header)
    ["Order"; "股票"; "USD"; "AAPL"; "2025-08-14, 11:32:43"; qty; "230.5";
     commission].

Definition subtotal_record : gmap string string :=
  make_record (dedupe_headers trade_header)
    ["SubTotal"; "股票"; "USD"; "AAPL"; ""; "0"; ""; "-2.02"].

Definition sample_trades : list (gmap string string) :=
  [trade_record "-50" "-1.01"; subtotal_record; trade_record "50" "-1.01"].

Definition cash_header : list string := ["货币"; "结算日期"; "描述"; "金额"].

Definition cash_record (amount : string) : gmap string string :=
  make_record (dedupe_headers cash_header)
    ["USD"; "2025-01-02"; "Electronic Fund Transfer"; amount].

(** A statement whose only deposit has a thousands separator in its
    amount. *)
Definition bad_amount_file : list (list string) :=
  [ "存款和取款" :: "Header" :: cash_header;
    ["存款和取款"; "Data"; "USD"; "2025-01-02"; "Electronic Fund Transfer";
     "1,000.00"] ].

(** The values of Side. *)
Definition side_enum : list string :=
  ["Buy"; "Sell"; "Deposit"; "Withdrawal"; "Dividend"; "Taxes and fees"].

(** A statement with one trade whose quantity cell reads "nan", and the
    row it is converted to. *)
Definition nan_trade_file : list (list string) :=
  [ "交易" :: "Header" :: trade_header;
    ["交易"; "Data"; "Order"; "股票"; "USD"; "AAPL"; "2025-08-14, 11:32:43";
     "nan"; "230.5"; ""] ].

Definition nan_row : tv_row :=
  {| Symbol := "NASDAQ:AAPL"; Side := "Sell"; Qty := S754_nan;
     Fill_Price := "230.5"; Commission := Str "";
     Closing_Time := "2025-08-14 11:32:43" |}.

(** What the converters do guarantee of a quantity: it is NaN or it is
    at least zero. *)
Definition qty_ok (x : spec_float) : Prop := x = S754_nan \/ Py.ge0 x = true.

(** The number of times [h] stands in [l]. *)
Definition occurrences (h : string) (l : list string) : nat :=
  List.length (filter (fun h' => h' = h) l).

(** The name given to a header name that has [earlier] occurrences before
    it: unchanged for the first occurrence, suffixed with its rank from
    the second on. *)
Definition renamed (h : string) (earlier : nat) : string :=
  match earlier with
  | O => h
  | S _ => h +:+ "_" +:+ Py.str_of_nat (S earlier)
  end.

(** [seen_headers] after the loop has gone through [earlier]. *)
Definition counts (seen_headers : gmap string nat) (earlier : list string) : Prop :=
  forall h, seen_headers !! h =
            match occurrences h earlier with
            | O => None
            | S c => Some (S c)
            end.

(** The invariant of the parsing loop: the current section is registered. *)
Definition parser_wf (st : parser_state) : Prop :=
  forall s, current_section st = Some s -> is_Some (sections st !! s).

(** The rows of [l] that are the first occurrence of their key: those
    with no equal key among the rows before them, which are [earlier] and
    then the rows of [l] gone through. *)
Fixpoint first_occurrences (earlier l : list tv_row) : list tv_row :=
  match l with
  | [] => []
  | r :: rest =>
    if existsb (fun r' => key_eq (row_key r') (row_key r)) earlier
    then first_occurrences (earlier ++ [r]) rest
    else r :: first_occurrences (earlier ++ [r]) rest
  end.

(** The same row with another Commission cell. *)
Definition with_commission (c : cell) (r : tv_row) : tv_row :=
  {| Symbol := Symbol r; Side := Side r; Qty := Qty r;
     Fill_Price := Fill_Price r; Commission := c;
     Closing_Time := Closing_Time r |}.

(** The zeros of either sign. *)
Definition is_zero (x : spec_float) : Prop :=
  match x with S754_zero _ => True | _ => False end.

(** Some row of [rows] has a key equal to [k]. *)
Definition key_among (k : key) (rows : list tv_row) : bool :=
  existsb (fun r' => key_eq (row_key r') k) rows.

(** The set [seen] holds the keys of the rows [earlier], up to [==]. *)
Definition seen_agrees (seen : list key) (earlier : list tv_row) : Prop :=
  forall k, key_in k seen = key_among k earlier.

(** Two statements with the same trade, the commission rounded
    differently in the second. *)
Definition trade_file (commission : string) : list (list string) :=
  [ "交易" :: "Header" :: trade_header;
    ["交易"; "Data"; "Order"; "股票"; "USD"; "AAPL"; "2025-08-14, 11:32:43";
     "-50"; "230.5"; commission] ].

(** The order of the sort: keys compared as strings. *)
Definition key_le (a b : tv_row) : Prop :=
  String.leb (sort_key a) (sort_key b) = true.

(** Rows with timestamps out of order, two of them empty and two equal. *)
Definition unsorted_rows : list tv_row :=
  [ cash_row "Deposit" Py.zero "2025-03-01 0:00:00";
    cash_row "Dividend" Py.zero "";
    cash_row "Withdrawal" Py.zero "2025-01-01 0:00:00";
    cash_row "Deposit" Py.zero "";
    cash_row "Dividend" Py.zero "2025-01-01 0:00:00" ].

(** No row of [out] has a key equal to that of a row of [earlier] or of
    a row before it in [out]. *)
Fixpoint fresh_chain (earlier out : list tv_row) : Prop :=
  match out with
  | [] => True
  | r :: out' =>
    key_among (row_key r) earlier = false /\ fresh_chain (earlier ++ [r]) out'
  end.

(** The rows of the sample section: a sale and a purchase of 50. *)
Definition sell_50_row : tv_row :=
  {| Symbol := "NASDAQ:AAPL"; Side := "Sell";
     Qty := S754_finite false 7036874417766400 (-47);
     Fill_Price := "230.5";
     Commission := Num (S754_finite false 4548635623644201 (-52));
     Closing_Time := "2025-08-14 11:32:43" |}.

Definition buy_50_row : tv_row :=
  {| Symbol := "NASDAQ:AAPL"; Side := "Buy";
     Qty := S754_finite false 7036874417766400 (-47);
     Fill_Price := "230.5";
     Commission := Num (S754_finite false 4548635623644201 (-52));
     Closing_Time := "2025-08-14 11:32:43" |}.

(** Tactics: [run_body] runs a loop body recorded in a hypothesis, case by
    case on its lookups and parses; [in_list] proves membership in an
    explicit list. *)
Ltac run_body :=
  repeat (simpl in *; unfold mbind, result_bind, mret, result_ret, getitem, to_float in *;
    match goal with
    | H : Ok _ = Ok _ |- _ => injection H as H
    | H : Some _ = Some _ |- _ => injection H as H
    | H : Raise _ = Ok _ |- _ => discriminate H
    | H : Ok _ = Raise _ |- _ => discriminate H
    | H : context [match ?m !! ?k with _ => _ end] |- _ => destruct (m !! k) eqn:?
    | H : context [match ?f ?v with _ => _ end] |- _ =>
        lazymatch type of (f v) with option spec_float => destruct (f v) eqn:? end
    | H : context [if truthy ?s then _ else _] |- _ => destruct (truthy s) eqn:?
    end).

Ltac in_list := repeat (apply elem_of_cons; first [by left | right]).

(** The pair a flex row contributes to the map, when it contributes one:
    its stripped symbol and the prefix of its stripped exchange code, both
    cells being there and not blank. *)
Definition flex_entry (row : gmap string (option string))
    : option (string * string) :=
  match flex_get row "Symbol", flex_get row "ListingExchange" with
  | Some s, Some e =>
    let sym := Py.strip s in
    let ex := Py.strip e in
    if truthy sym && truthy ex
    then Some (sym, default ex (EXCHANGE_MAP !! ex))
    else None
  | _, _ => None
  end.

(** The pairs of all the rows, in file-then-row order. *)
Definition flex_entries (flex_files : list (list (gmap string (option string))))
    : list (string * string) :=
  omap flex_entry (concat flex_files).

(** The first pair of [entries] with the key [k] is [(k, v)]. *)
Definition first_entry (entries : list (string * string)) (k v : string) : Prop :=
  exists i, entries !! i = Some (k, v)
    /\ forall j p, (j < i)%nat -> entries !! j = Some p -> p.1 <> k.

(** A row with a cell [None] under one of the two columns read. *)
Definition short_flex_row (row : gmap string (option string)) : Prop :=
  row !! "Symbol" = Some None \/ row !! "ListingExchange" = Some None.

#[global] Instance short_flex_row_dec row : Decision (short_flex_row row).
Proof. unfold short_flex_row. apply _. Defined.

(** Sample flex rows. *)
Definition flex_sample : list (list (gmap string (option string))) :=
  [ [ {[ "Symbol" := Some "AAPL"; "ListingExchange" := Some "NASDAQ" ]};
      {[ "Symbol" := Some " SPY "; "ListingExchange" := Some "ARCA" ]};
      {[ "Symbol" := Some ""; "ListingExchange" := Some "NYSE" ]} ];
    [ {[ "Symbol" := Some "SPY"; "ListingExchange" := Some "NYSE" ]};
      {[ "Symbol" := Some "SAP"; "ListingExchange" := Some "IBIS" ]} ] ].

(** The text holds an underscore. *)
Fixpoint has_underscore (s : string) : bool :=
  match s with
  | EmptyString => false
  | String c s' => Ascii.eqb c "_" || has_underscore s'
  end.

(** The names the renaming pass generates for [raw]: [h_k] for a name [h]
    of the header and [2 <= k <=] the number of its occurrences. *)
Definition generated (raw : list string) (g : string) : Prop :=
  exists h c, (1 <= c < occurrences h raw)%nat /\ g = renamed h c.

(** The section tag of a Header row. *)
Definition header_tag (row : list string) : option string :=
  match row with
  | c0 :: c1 :: _ =>
    if String.eqb (Py.strip c1) "Header" then Some (Py.strip c0) else None
  | _ => None
  end.

(** A row with at least two fields whose kind is Header or Data. *)
Definition known_kind (row : list string) : Prop :=
  match row with
  | _ :: c1 :: _ => Py.strip c1 = "Header" \/ Py.strip c1 = "Data"
  | _ => False
  end.

#[global] Instance known_kind_dec row : Decision (known_kind row).
Proof. destruct row as [|c0 [|c1 fields]]; simpl; apply _. Defined.

(** [hs] is the renamed header of a Header row of [rows] tagged [s]. *)
Definition header_of (rows : list (list string)) (s : string)
    (hs : list string) : Prop :=
  exists c0 c1 fields, (c0 :: c1 :: fields) ∈ rows
    /\ Py.strip c0 = s /\ Py.strip c1 = "Header"
    /\ hs = dedupe_headers fields.

(** A statement with two sections, the rows of the first interleaved with
    the second; lines of other kinds and a short line. *)
Definition interleaved_file : list (list string) :=
  [ ["Statement"; "Header"; "Field Name"; "Field Value"];
    ["Statement"; "Data"; "Title"; "Activity Statement"];
    ["x"];
    "存款和取款" :: "Header" :: cash_header;
    ["存款和取款"; "Data"; "USD"; "2025-01-02"; "Deposit"; "1000.00"];
    ["股息"; "Header"; "货币"; "日期"; "描述"; "金额"];
    ["存款和取款"; "Data"; "USD"; "2025-01-03"; "Deposit"; "5.00"];
    ["股息"; "Total"; ""; ""; ""; "3.00"];
    ["股息"; "Data"; "USD"; "2025-02-01"; "AAPL dividend"; "3.00"] ].

(** The invariant that ties the state of the parser to the rows [seen] it
    has gone through: the active header is the renamed header of a Header
    row of the current section, and every record binds the names of a
    non-empty renamed header of its section. *)
Definition parser_inv (seen : list (list string)) (st : parser_state) : Prop :=
  (forall s hs, current_section st = Some s -> current_headers st = Some hs ->
     header_of seen s hs)
  /\ (forall s l rec, sections st !! s = Some l -> rec ∈ l ->
       exists hs, hs <> [] /\ header_of seen s hs /\ dom rec = list_to_set hs).

#[global] Instance cash_eligible_dec r : Decision (cash_eligible r).
Proof. unfold cash_eligible. apply _. Defined.

(** The row of a deposit or withdrawal record: Deposit with the amount
    when it is positive, Withdrawal with its absolute value otherwise. *)
Definition cash_rule (float : string -> option spec_float)
    (r : gmap string string) (row : tv_row) : Prop :=
  exists x, float (amount_str_of r) = Some x
    /\ row = cash_row (if Py.gt0 x then "Deposit" else "Withdrawal")
                      (if Py.gt0 x then x else Py.abs x)
                      (midnight r "结算日期").

(** A dividend record that is emitted: eligible, with an amount that is
    not [<= 0]; and a tax record that is emitted: eligible, with an amount
    that is not [>= 0]. *)
Definition dividend_paid (float : string -> option spec_float)
    (r : gmap string string) : Prop :=
  cash_eligible r
  /\ match float (amount_str_of r) with
     | Some x => Py.le0 x = false
     | None => False
     end.

Definition tax_withheld (float : string -> option spec_float)
    (r : gmap string string) : Prop :=
  cash_eligible r
  /\ match float (amount_str_of r) with
     | Some x => Py.ge0 x = false
     | None => False
     end.

#[global] Instance dividend_paid_dec float r : Decision (dividend_paid float r).
Proof. unfold dividend_paid. destruct (float (amount_str_of r)); apply _. Defined.

#[global] Instance tax_withheld_dec float r : Decision (tax_withheld float r).
Proof. unfold tax_withheld. destruct (float (amount_str_of r)); apply _. Defined.

Definition dividend_rule (float : string -> option spec_float)
    (r : gmap string string) (row : tv_row) : Prop :=
  exists x, float (amount_str_of r) = Some x
    /\ row = cash_row "Dividend" x (midnight r "日期").

Definition tax_rule (float : string -> option spec_float)
    (r : gmap string string) (row : tv_row) : Prop :=
  exists x, float (amount_str_of r) = Some x
    /\ row = cash_row "Taxes and fees" (Py.abs x) (midnight r "日期").

(** Every eligible cash record has an amount that parses. *)
Definition amounts_parse (float : string -> option spec_float)
    (records : list (gmap string string)) : Prop :=
  Forall (fun r => cash_eligible r -> is_Some (float (amount_str_of r))) records.

(** The fields of a trade row other than Side and Qty. *)
Definition trade_fields_rule (float : string -> option spec_float)
    (m : gmap string string) (r : gmap string string) (row : tv_row) : Prop :=
  exists symbol currency price commission dt,
    r !! "代码" = Some symbol /\ r !! "货币" = Some currency
    /\ r !! "交易价格" = Some price /\ r !! "佣金/税" = Some commission
    /\ r !! "日期/时间" = Some dt
    /\ Symbol row = get_tv_symbol (Py.strip symbol) (Py.strip currency) m
    /\ Fill_Price row = Py.strip price
    /\ Closing_Time row = Py.replace ", " " " (Py.strip dt)
    /\ (Py.strip commission = "" -> Commission row = Str "")
    /\ (Py.strip commission <> "" ->
         exists x, float commission = Some x /\ Commission row = Num (Py.abs x)).

(** Sample cash records: a deposit, a withdrawal and a total line without
    description. *)
Definition sample_cash : list (gmap string string) :=
  [ cash_record "1000.00"; cash_record "-250.50";
    make_record (dedupe_headers cash_header) ["Total"; ""; ""; "749.50"] ].

(** No two rows of the list have equal keys, in either order. *)
Fixpoint keys_apart (l : list tv_row) : Prop :=
  match l with
  | [] => True
  | r :: l' =>
    Forall (fun x => key_eq (row_key r) (row_key x) = false
                     /\ key_eq (row_key x) (row_key r) = false) l'
    /\ keys_apart l'
  end.

(** A statement of sample deposits, and one whose amount does not parse
    after it. *)
Definition deposits_file : list (list string) :=
  [ "存款和取款" :: "Header" :: cash_header;
    ["存款和取款"; "Data"; "USD"; "2025-01-02"; "Electronic Fund Transfer";
     "1000.00"];
    ["存款和取款"; "Data"; "USD"; "2025-01-05"; "Electronic Fund Transfer";
     "-250.50"] ].

Definition deposit_row : tv_row :=
  cash_row "Deposit" (S754_finite false 8796093022208000 (-43))
    "2025-01-02 0:00:00".

Definition withdrawal_row : tv_row :=
  cash_row "Withdrawal" (S754_finite false 8813685208252416 (-45))
    "2025-01-05 0:00:00".

(** The second record of [deposits_file], and a statement with a trade
    and the two deposits. *)
Definition withdrawal_record : gmap string string :=
  make_record (dedupe_headers cash_header)
    ["USD"; "2025-01-05"; "Electronic Fund Transfer"; "-250.50"].

Definition mixed_file : list (list string) :=
  (trade_file "-1.01" ++ deposits_file)%list.

Definition mixed_sections : gmap string (list (gmap string string)) :=
  {[ "交易" := [trade_record "-50" "-1.01"];
     "存款和取款" := [cash_record "1000.00"; withdrawal_record] ]}.

(** Two rows record the same event: Symbol, Side, Fill Price and Closing
    Time are the same text and the quantities are equal as numbers ([==]
    on floats: the two zeros are equal, NaN equals nothing).  Commission
    is not compared. *)
Definition same_event (r1 r2 : tv_row) : Prop :=
  Symbol r1 = Symbol r2 /\ Side r1 = Side r2
  /\ SFeqb (Qty r1) (Qty r2) = true
  /\ Fill_Price r1 = Fill_Price r2 /\ Closing_Time r1 = Closing_Time r2.

#[global] Instance same_event_dec r1 r2 : Decision (same_event r1 r2).
Proof. unfold same_event. apply _. Defined.

(** The rows of [l] that are the first of their event: those with no row
    of the same event before them, among [earlier] and the rows of [l]
    gone through. *)
Fixpoint keep_first (earlier l : list tv_row) : list tv_row :=
  match l with
  | [] => []
  | r :: rest =>
    if decide (Exists (fun r' => same_event r' r) earlier)
    then keep_first (earlier ++ [r]) rest
    else r :: keep_first (earlier ++ [r]) rest
  end.

(** The statement with one trade of quantity "nan", by its commission
    cell. *)
Definition nan_trade_file_with (commission : string) : list (list string) :=
  [ "交易" :: "Header" :: trade_header;
    ["交易"; "Data"; "Order"; "股票"; "USD"; "AAPL"; "2025-08-14, 11:32:43";
     "nan"; "230.5"; commission] ].

(** The parser after the Header row of the deposits section. *)
Definition after_cash_header : parser_state :=
  {| sections := {[ "存款和取款" := [] ]};
     current_section := Some "存款和取款";
     current_headers := Some cash_header |}.

(** * Properties *)

(** ** The error monad and the record loop *)

Lemma for_each_acc {A B : Type} (body : A -> result (option B)) records rows :
  for_each body records rows =
  match for_each body records [] with
  | Ok out => Ok (rows ++ out)%list
  | Raise e => Raise e
  end.
Proof.
  revert rows. induction records as [|r rest IH]; intros rows; simpl.
  - by rewrite app_nil_r.
  - destruct (body r) as [[row|]|e]; try done.
    rewrite (IH (rows ++ [row])%list), (IH [row]).
    destruct (for_each body rest []); [|done].
    by rewrite <- app_assoc.
Qed.

Lemma for_each_cons {A B : Type} (body : A -> result (option B)) r rest :
  for_each body (r :: rest) [] =
  match body r with
  | Raise e => Raise e
  | Ok None => for_each body rest []
  | Ok (Some row) =>
    match for_each body rest [] with
    | Ok out => Ok (row :: out)
    | Raise e => Raise e
    end
  end.
Proof.
  simpl. destruct (body r) as [[row|]|e]; try done.
  rewrite for_each_acc. by destruct (for_each body rest []).
Qed.

(** The loop returns iff no iteration raises, and then returns the rows of
    the iterations that appended one, in order. *)
Lemma for_each_Ok {A B : Type} (body : A -> result (option B)) records out :
  for_each body records [] = Ok out <->
  exists os, Forall2 (fun r o => body r = Ok o) records os /\ out = omap id os.
Proof.
  revert out. induction records as [|r rest IH]; intros out.
  - simpl. split.
    + intros [= <-]. exists []. split; [constructor|done].
    + intros (os & HF & ->). by inversion HF.
  - rewrite for_each_cons. split.
    + destruct (body r) as [[row|]|e] eqn:Hb; [| |done].
      * destruct (for_each body rest []) as [out'|] eqn:Hrest; [|done].
        intros [= <-]. destruct (proj1 (IH out') eq_refl) as (os & HF & ->).
        exists (Some row :: os). split; [by constructor|done].
      * intros Hrest. destruct (proj1 (IH out) Hrest) as (os & HF & ->).
        exists (None :: os). split; [by constructor|done].
    + intros (os & HF & ->). inversion HF as [|? o ? os' Hb HF']; subst.
      rewrite Hb. pose proof (proj2 (IH (omap id os')) (ex_intro _ os' (conj HF' eq_refl))) as Hrest.
      destruct o as [row|]; simpl; [by rewrite Hrest|done].
Qed.

Lemma for_each_total {A B : Type} (body : A -> result (option B)) records :
  Forall (fun r => exists o, body r = Ok o) records ->
  exists out, for_each body records [] = Ok out.
Proof.
  induction 1 as [|r rest [o Ho] _ [out IH]].
  - by exists [].
  - rewrite for_each_cons, Ho. rewrite IH. destruct o; eauto.
Qed.

Lemma for_each_Ok_each {A B : Type} (body : A -> result (option B)) records out r :
  for_each body records [] = Ok out -> r ∈ records -> exists o, body r = Ok o.
Proof.
  revert out. induction records as [|r' rest IH]; intros out Hout Hin.
  - by apply elem_of_nil in Hin.
  - rewrite for_each_cons in Hout.
    destruct (body r') as [o|e] eqn:Hb; [|done].
    apply elem_of_cons in Hin as [->|Hin]; [eauto|].
    destruct o as [row|]; [|eauto].
    destruct (for_each body rest []) as [out'|]; [eauto|done].
Qed.

Lemma for_each_raises {A B : Type} (body : A -> result (option B)) records r :
  r ∈ records -> raises (body r) -> raises (for_each body records []).
Proof.
  intros Hin [e He]. induction records as [|r' rest IH].
  - by apply elem_of_nil in Hin.
  - rewrite for_each_cons. apply elem_of_cons in Hin as [<-|Hin].
    + rewrite He. by exists e.
    + destruct (IH Hin) as [e' ->].
      destruct (body r') as [[row|]|e'']; by eexists.
Qed.

(** Rows of the filtered records: when the body appends a row exactly for
    the records satisfying [P], the output lines up with [filter P]. *)
Lemma for_each_filter {A B : Type} (body : A -> result (option B))
    (P : A -> Prop) `{forall r, Decision (P r)} (R : A -> B -> Prop) records out :
  (forall r row, body r = Ok (Some row) -> P r /\ R r row) ->
  (forall r, body r = Ok None -> ~ P r) ->
  for_each body records [] = Ok out ->
  Forall2 R (filter P records) out.
Proof.
  intros HSome HNone. revert out.
  induction records as [|r rest IH]; intros out.
  - simpl. intros [= <-]. constructor.
  - rewrite for_each_cons. destruct (body r) as [[row|]|e] eqn:Hb; [| |done].
    + destruct (for_each body rest []) as [out'|]; [|done]. intros [= <-].
      destruct (HSome _ _ Hb) as [HP HR].
      rewrite filter_cons_True by done. constructor; auto.
    + intros Hrest. rewrite filter_cons_False by auto. auto.
Qed.

(** ** [convert_trades] *)

Lemma trades_body_skip float m r :
  ~ stock_order r -> trades_body float m r = Ok None.
Proof.
  intros Hn. unfold trades_body.
  destruct (bool_decide _) eqn:H1; [|done].
  destruct (bool_decide (r !! "资产分类" = _)) eqn:H2; [|done].
  apply bool_decide_eq_true in H1, H2. by destruct Hn.
Qed.

Lemma trades_body_stock float m r o :
  trades_body float m r = Ok o -> stock_order r -> is_Some o.
Proof.
  unfold trades_body. intros Hb [H1 H2].
  rewrite !bool_decide_eq_true_2 in Hb by done.
  run_body; subst; eauto.
Qed.

Lemma trades_body_None float m r :
  trades_body float m r = Ok None -> ~ stock_order r.
Proof.
  intros Hb Hs. destruct (trades_body_stock _ _ _ _ Hb Hs) as [? [=]].
Qed.

Lemma lt0_not_gt0 q : lt0 q = true -> Py.gt0 q = false.
Proof. by destruct q as [[]|[]| |[]]. Qed.

Lemma side_of_sign q (side : string) :
  side = (if Py.gt0 q then "Buy" else "Sell") ->
  (Py.gt0 q = true -> side = "Buy") /\ (lt0 q = true -> side = "Sell").
Proof.
  intros ->. split.
  - by intros ->.
  - intros Hq. by rewrite (lt0_not_gt0 _ Hq).
Qed.

Lemma trades_body_Some float m r row :
  trades_body float m r = Ok (Some row) -> stock_order r /\ sign_rule float r row.
Proof.
  intros Hb. destruct (decide (stock_order r)) as [Hs|Hn].
  - split; [done|]. destruct Hs as [H1 H2]. unfold trades_body in Hb.
    rewrite !bool_decide_eq_true_2 in Hb by done.
    run_body; subst; eexists _, _; (split; [eassumption|]); (split; [eassumption|]);
      simpl; (split; [exact (proj1 (side_of_sign _ _ eq_refl))|]);
      (split; [exact (proj2 (side_of_sign _ _ eq_refl))|done]).
  - by rewrite trades_body_skip in Hb.
Qed.

Lemma trade_keys_lookup (P : string -> Prop) :
  Forall P trade_keys <->
  P "代码" /\ P "货币" /\ P "数量" /\ P "交易价格" /\ P "佣金/税" /\ P "日期/时间".
Proof.
  unfold trade_keys. rewrite !Forall_cons, Forall_nil. tauto.
Qed.

Lemma trades_body_ok float m r :
  stock_order r -> trade_fields_ok float r ->
  exists row, trades_body float m r = Ok (Some row).
Proof.
  intros [H1 H2] [HF [Hq Hc]].
  apply trade_keys_lookup in HF
    as ([v1 E1] & [v2 E2] & [v3 E3] & [v4 E4] & [v5 E5] & [v6 E6]).
  destruct (Hq _ E3) as [q Eq]. unfold trades_body.
  rewrite !bool_decide_eq_true_2 by done.
  unfold getitem, to_float. rewrite E1, E2, E3, E4, E5, E6. simpl.
  rewrite Eq. simpl. destruct (truthy (Py.strip v5)) eqn:Et; simpl; [|eauto].
  destruct (Hc _ E5 Et) as [c ->]. simpl. eauto.
Qed.

Lemma trades_body_Ok_fields float m r o :
  stock_order r -> trades_body float m r = Ok o -> trade_fields_ok float r.
Proof.
  intros [H1 H2] Hb. unfold trades_body in Hb.
  rewrite !bool_decide_eq_true_2 in Hb by done.
  run_body; (split; [apply trade_keys_lookup; by eauto 10|]);
    (split; intros v' Hv'; simplify_eq; eauto; congruence).
Qed.

Lemma trades_body_missing float m r k :
  stock_order r -> k ∈ trade_keys -> r !! k = None ->
  raises (trades_body float m r).
Proof.
  intros Hs Hk Hnone. destruct (trades_body float m r) as [o|e] eqn:Hb.
  - destruct (trades_body_Ok_fields _ _ _ _ Hs Hb) as [HF _].
    rewrite Forall_forall in HF. destruct (HF k Hk) as [v Hv]. congruence.
  - by exists e.
Qed.

Lemma trades_body_KeyError float m r k :
  stock_order r -> k ∈ trade_keys -> r !! k = None ->
  trade_numbers_ok float r ->
  exists k', k' ∈ trade_keys /\ r !! k' = None
             /\ trades_body float m r = Raise (KeyError k').
Proof.
  intros [H1 H2] Hk Hnone [Hq Hc]. unfold trades_body.
  rewrite !bool_decide_eq_true_2 by done. unfold getitem, to_float, trade_keys.
  destruct (r !! "代码") as [v1|] eqn:E1; simpl;
    [|exists "代码"; split; [in_list|done]].
  destruct (r !! "货币") as [v2|] eqn:E2; simpl;
    [|exists "货币"; split; [in_list|done]].
  destruct (r !! "数量") as [v3|] eqn:E3; simpl;
    [|exists "数量"; split; [in_list|done]].
  destruct (Hq _ eq_refl) as [q ->]. simpl.
  destruct (r !! "交易价格") as [v4|] eqn:E4; simpl;
    [|exists "交易价格"; split; [in_list|done]].
  destruct (r !! "佣金/税") as [v5|] eqn:E5; simpl;
    [|exists "佣金/税"; split; [in_list|done]].
  assert (exists c, (if truthy (Py.strip v5)
                     then x ← match float v5 with
                              | Some x => Ok x
                              | None => Raise (ValueError v5)
                              end; Ok (Num (Py.abs x))
                     else Ok (Str "")) = Ok c) as [c ->].
  { destruct (truthy (Py.strip v5)) eqn:Et; [|eauto].
    destruct (Hc _ eq_refl Et) as [c ->]. simpl. eauto. }
  simpl.
  destruct (r !! "日期/时间") as [v6|] eqn:E6; simpl;
    [|exists "日期/时间"; split; [in_list|done]].
  exfalso. unfold trade_keys in Hk.
  repeat (apply elem_of_cons in Hk as [->|Hk]; [congruence|]).
  by apply elem_of_nil in Hk.
Qed.

Lemma trades_body_bad_number float m r :
  bad_number float Trades r -> raises (trades_body float m r).
Proof.
  intros (Hs & v & Hv & Hf). destruct (trades_body float m r) as [o|e] eqn:Hb.
  - destruct (trades_body_Ok_fields _ _ _ _ Hs Hb) as [_ [Hq _]].
    destruct (Hq _ Hv) as [q Hq']. congruence.
  - by exists e.
Qed.

(** C3: [convert_trades] emits one row per record whose discriminator is
    "Order" and whose asset class is the equities marker, in order, and no
    other row; each row has Side=Buy for a positive quantity, Side=Sell for
    a negative one, and Qty the absolute value.  The converter returns
    exactly when such records have their fields and parsable numbers. *)
Theorem convert_trades_emits_stock_orders float records m :
  (forall rows, convert_trades float records m = Ok rows ->
     Forall2 (sign_rule float) (filter stock_order records) rows)
  /\ (Forall (fun r => stock_order r -> trade_fields_ok float r) records <->
      exists rows, convert_trades float records m = Ok rows).
Proof.
  unfold convert_trades. split; [|split].
  - intros rows. apply for_each_filter.
    + apply trades_body_Some.
    + apply trades_body_None.
  - intros HF. apply for_each_total. eapply Forall_impl; [exact HF|].
    intros r Hr. simpl in Hr. destruct (decide (stock_order r)) as [Hs|Hn].
    + destruct (trades_body_ok float m r Hs (Hr Hs)) as [row ->]. eauto.
    + rewrite trades_body_skip by done. eauto.
  - intros [rows Hrows]. apply Forall_forall. intros r Hr Hs.
    destruct (for_each_Ok_each _ _ _ _ Hrows Hr) as [o Ho].
    by eapply trades_body_Ok_fields.
Qed.

Lemma trade_record_ok qty commission :
  is_Some (py_float qty) ->
  (truthy (Py.strip commission) = true -> is_Some (py_float commission)) ->
  stock_order (trade_record qty commission)
  /\ trade_fields_ok py_float (trade_record qty commission).
Proof.
  intros Hq Hc. split; [by split|]. split.
  - apply trade_keys_lookup. by repeat split; eexists.
  - split; intros v [= <-]; auto.
Qed.

Lemma sample_trades_ok :
  Forall (fun r => stock_order r -> trade_fields_ok py_float r) sample_trades.
Proof.
  unfold sample_trades.
  apply Forall_cons; split; [intros _; by apply trade_record_ok|].
  apply Forall_cons; split; [intros [H _]; vm_compute in H; discriminate H|].
  apply Forall_cons; split; [intros _; by apply trade_record_ok|].
  apply Forall_nil_2.
Qed.

(** The sample section: a sale of 50 (quantity -50), a subtotal line and a
    purchase of 50 yield a Sell row and a Buy row, each with Qty 50. *)
Lemma convert_trades_sample :
  convert_trades py_float sample_trades ∅ = Ok [sell_50_row; buy_50_row].
Proof. vm_compute. reflexivity. Qed.

Lemma convert_trades_emits_stock_orders_witness :
  convert_trades py_float sample_trades ∅ = Ok [sell_50_row; buy_50_row]
  /\ Forall2 (sign_rule py_float) (filter stock_order sample_trades)
       [sell_50_row; buy_50_row].
Proof.
  destruct (convert_trades_emits_stock_orders py_float sample_trades ∅)
    as [Hrows _].
  split; [exact convert_trades_sample|exact (Hrows _ convert_trades_sample)].
Defined.

(** C9: a record that passes both filters and whose quantity parses to
    zero (of either sign) is not skipped: its iteration appends a row with
    Side=Sell and Qty=0. *)
Theorem zero_quantity_is_sell float m r v s :
  stock_order r -> trade_fields_ok float r ->
  r !! "数量" = Some v -> float v = Some (S754_zero s) ->
  exists row, trades_body float m r = Ok (Some row)
    /\ convert_trades float [r] m = Ok [row]
    /\ Side row = "Sell" /\ Qty row = S754_zero false.
Proof.
  intros Hs Hok Hv Hq.
  destruct (trades_body_ok float m r Hs Hok) as [row Hb].
  exists row. split; [done|]. split.
  - unfold convert_trades. by rewrite for_each_cons, Hb.
  - destruct (trades_body_Some _ _ _ _ Hb) as [_ (v' & q & Hv' & Hq' & _ & _ & Hqty)].
    assert (q = S754_zero s) as -> by congruence. split; [|done].
    clear -Hb Hv Hq Hs. destruct Hs as [H1 H2]. unfold trades_body in Hb.
    rewrite !bool_decide_eq_true_2 in Hb by done.
    run_body; subst; simplify_eq; done.
Qed.

Lemma zero_quantity_is_sell_witness :
  exists row, trades_body py_float ∅ (trade_record "0" "") = Ok (Some row)
    /\ convert_trades py_float [trade_record "0" ""] ∅ = Ok [row]
    /\ Side row = "Sell" /\ Qty row = S754_zero false.
Proof.
  apply (zero_quantity_is_sell py_float ∅ (trade_record "0" "") "0" false).
  - by apply trade_record_ok.
  - by apply trade_record_ok.
  - reflexivity.
  - reflexivity.
Defined.

(** C10: a record that passes both filters and lacks one of the six
    fields read by subscript makes [convert_trades] raise; when its
    numeric fields are well-formed the exception is the [KeyError] of a
    missing field. *)
Theorem missing_trade_field_raises float m records r k :
  r ∈ records -> stock_order r -> k ∈ trade_keys -> r !! k = None ->
  raises (convert_trades float records m)
  /\ (trade_numbers_ok float r ->
      exists k', k' ∈ trade_keys /\ r !! k' = None
        /\ trades_body float m r = Raise (KeyError k')
        /\ convert_trades float [r] m = Raise (KeyError k')).
Proof.
  intros Hin Hs Hk Hnone. split.
  - unfold convert_trades. eapply for_each_raises; [exact Hin|].
    by eapply trades_body_missing.
  - intros Hnum.
    destruct (trades_body_KeyError float m r k Hs Hk Hnone Hnum)
      as (k' & Hk' & Hn' & Hb).
    exists k'. repeat split; try done.
    unfold convert_trades. by rewrite for_each_cons, Hb.
Qed.

Lemma missing_trade_field_raises_witness :
  let r := delete "交易价格" (trade_record "50" "-1.01") in
  raises (convert_trades py_float [subtotal_record; r] ∅)
  /\ convert_trades py_float [r] ∅ = Raise (KeyError "交易价格").
Proof.
  intros r. split; [|vm_compute; reflexivity].
  apply (missing_trade_field_raises py_float ∅ [subtotal_record; r] r "交易价格").
  - in_list.
  - split; reflexivity.
  - unfold trade_keys. in_list.
  - reflexivity.
Defined.

(** ** The cash converters *)

Lemma cash_bodies_bad_number float r :
  cash_eligible r -> float (amount_str_of r) = None ->
  cash_body float r = Raise (ValueError (amount_str_of r))
  /\ dividends_body float r = Raise (ValueError (amount_str_of r))
  /\ taxes_body float r = Raise (ValueError (amount_str_of r)).
Proof.
  unfold cash_eligible, amount_str_of, desc_of, cash_body, dividends_body,
    taxes_body, to_float.
  intros [-> ->] ->. by simpl.
Qed.

Lemma convert_bad_number float k m records r :
  r ∈ records -> bad_number float k r -> raises (convert float k m records).
Proof.
  intros Hin Hbad. destruct k; simpl in *; unfold convert_trades,
    convert_cash_transactions, convert_dividends, convert_taxes;
    (eapply for_each_raises; [exact Hin|]).
  - by apply trades_body_bad_number.
  - destruct Hbad as [He Hf].
    destruct (cash_bodies_bad_number float r He Hf) as (-> & _ & _). by eexists.
  - destruct Hbad as [He Hf].
    destruct (cash_bodies_bad_number float r He Hf) as (_ & -> & _). by eexists.
  - destruct Hbad as [He Hf].
    destruct (cash_bodies_bad_number float r He Hf) as (_ & _ & ->). by eexists.
Qed.

(** ** [process_activity_statement] and [main] *)

Lemma process_raises float file m sections k :
  parse_activity_statement file = Ok sections ->
  raises (convert float k m (default [] (sections !! section_name k))) ->
  raises (process_activity_statement float file m).
Proof.
  intros Hp [e He]. unfold process_activity_statement. rewrite Hp. simpl.
  unfold mbind, result_bind.
  destruct (convert_trades _ _ _) as [r1|e1] eqn:E1; [|by eexists].
  destruct (convert_cash_transactions _ _ _) as [r2|e2] eqn:E2; [|by eexists].
  destruct (convert_dividends _ _) as [r3|e3] eqn:E3; [|by eexists].
  destruct (convert_taxes _ _) as [r4|e4] eqn:E4; [|by eexists].
  destruct k; simpl in He; congruence.
Qed.

Lemma collect_rows_raises float inputs m file all_rows :
  file ∈ inputs -> raises (process_activity_statement float file m) ->
  raises (collect_rows float inputs m all_rows).
Proof.
  intros Hin [e He]. revert all_rows.
  induction inputs as [|f rest IH]; intros all_rows.
  - by apply elem_of_nil in Hin.
  - simpl. unfold mbind, result_bind.
    apply elem_of_cons in Hin as [<-|Hin].
    + rewrite He. by eexists.
    + destruct (process_activity_statement float f m); [by apply IH|by eexists].
Qed.

Lemma main_raises float inputs m file :
  file ∈ inputs -> raises (process_activity_statement float file m) ->
  raises (main float inputs m).
Proof.
  intros Hin Hr. unfold main.
  destruct (collect_rows_raises float inputs m file [] Hin Hr) as [e ->].
  by exists e.
Qed.

(** C8: a record that passed its converter's filters and whose quantity or
    amount is not a parsable number makes the converter raise; the
    exception aborts the processing of the file that holds the record, and
    with it the run. *)
Theorem unparsable_number_raises float k m records r :
  r ∈ records -> bad_number float k r ->
  raises (convert float k m records)
  /\ (forall file sections inputs,
        parse_activity_statement file = Ok sections ->
        sections !! section_name k = Some records ->
        file ∈ inputs ->
        raises (process_activity_statement float file m)
        /\ raises (main float inputs m)).
Proof.
  intros Hin Hbad.
  pose proof (convert_bad_number float k m records r Hin Hbad) as Hr.
  split; [exact Hr|].
  intros file sections inputs Hp Hs Hf.
  assert (raises (process_activity_statement float file m)) as Hproc.
  { eapply process_raises; [exact Hp|]. rewrite Hs. exact Hr. }
  split; [exact Hproc|]. by eapply main_raises.
Qed.

Lemma unparsable_number_raises_witness :
  raises (convert py_float Cash ∅ [cash_record "1,000.00"])
  /\ raises (process_activity_statement py_float bad_amount_file ∅)
  /\ raises (main py_float [bad_amount_file] ∅).
Proof.
  assert (bad_number py_float Cash (cash_record "1,000.00")) as Hbad.
  { split; [split|]; reflexivity. }
  destruct (unparsable_number_raises py_float Cash ∅
              [cash_record "1,000.00"] (cash_record "1,000.00")) as [H1 H2].
  - in_list.
  - exact Hbad.
  - split; [exact H1|].
    apply (H2 bad_amount_file {[ "存款和取款" := [cash_record "1,000.00"] ]}).
    + vm_compute. reflexivity.
    + reflexivity.
    + in_list.
Defined.

(** ** Side and Qty of the emitted rows *)

Lemma for_each_Forall {A B : Type} (body : A -> result (option B))
    (P : B -> Prop) records out :
  (forall r row, body r = Ok (Some row) -> P row) ->
  for_each body records [] = Ok out -> Forall P out.
Proof.
  intros HP. revert out. induction records as [|r rest IH]; intros out.
  - intros [= <-]. constructor.
  - rewrite for_each_cons. destruct (body r) as [[row|]|e] eqn:Hb; [| |done].
    + destruct (for_each body rest []) as [out'|]; [|done]. intros [= <-].
      constructor; eauto.
    + apply IH.
Qed.

Lemma abs_qty_ok x : qty_ok (Py.abs x).
Proof. destruct x as [[]|[]| |[]]; (by left) || (by right). Qed.

Lemma gt0_qty_ok x : Py.gt0 x = true -> qty_ok x.
Proof. destruct x as [[]|[]| |[]]; try done; by right. Qed.

Lemma not_le0_qty_ok x : Py.le0 x = false -> qty_ok x.
Proof. destruct x as [[]|[]| |[]]; try done; (by left) || (by right). Qed.

Lemma body_side_qty float k m r row :
  match k with
  | Trades => trades_body float m r
  | Cash => cash_body float r
  | Dividends => dividends_body float r
  | Taxes => taxes_body float r
  end = Ok (Some row) ->
  Side row ∈ side_enum /\ qty_ok (Qty row).
Proof.
  unfold side_enum. destruct k.
  - intros Hb. destruct (trades_body_Some _ _ _ _ Hb) as [[H1 H2] _].
    unfold trades_body in Hb. rewrite !bool_decide_eq_true_2 in Hb by done.
    run_body; subst; simpl; (split; [|apply abs_qty_ok]);
      match goal with |- (if ?b then _ else _) ∈ _ => destruct b end; in_list.
  - unfold cash_body, to_float. destruct (truthy _); [|done].
    destruct (truthy _); [|done]. simpl. destruct (float _) as [x|]; [|done].
    simpl. destruct (Py.gt0 x) eqn:Hx; intros [= <-]; simpl.
    + split; [in_list|by apply gt0_qty_ok].
    + split; [in_list|apply abs_qty_ok].
  - unfold dividends_body, to_float. destruct (truthy _); [|done].
    destruct (truthy _); [|done]. simpl. destruct (float _) as [x|]; [|done].
    simpl. destruct (Py.le0 x) eqn:Hx; [done|]. intros [= <-]; simpl.
    split; [in_list|by apply not_le0_qty_ok].
  - unfold taxes_body, to_float. destruct (truthy _); [|done].
    destruct (truthy _); [|done]. simpl. destruct (float _) as [x|]; [|done].
    simpl. destruct (Py.ge0 x) eqn:Hx; [done|]. intros [= <-]; simpl.
    split; [in_list|apply abs_qty_ok].
Qed.

(** X18: every row a converter emits has its Side in the enumeration and
    a quantity that is NaN or at least zero: no converter emits a negative
    quantity. *)
Lemma converters_side_qty float k m records rows :
  convert float k m records = Ok rows ->
  Forall (fun row => Side row ∈ side_enum /\ qty_ok (Qty row)) rows.
Proof.
  destruct k; simpl; unfold convert_trades, convert_cash_transactions,
    convert_dividends, convert_taxes; apply for_each_Forall; intros r row.
  - apply (body_side_qty float Trades m).
  - apply (body_side_qty float Cash m).
  - apply (body_side_qty float Dividends m).
  - apply (body_side_qty float Taxes m).
Qed.

(** C4: on a statement whose quantity (or amount) cell reads "nan" each
    converter emits a row whose Qty is NaN, and NaN is not at least zero. *)
Theorem nan_quantity_emitted :
  process_activity_statement py_float nan_trade_file ∅ = Ok [nan_row]
  /\ Py.ge0 (Qty nan_row) = false
  /\ convert_cash_transactions py_float [cash_record "nan"] ""
     = Ok [cash_row "Withdrawal" S754_nan "2025-01-02 0:00:00"]
  /\ convert_dividends py_float [cash_record "nan"]
     = Ok [cash_row "Dividend" S754_nan ""]
  /\ convert_taxes py_float [cash_record "nan"]
     = Ok [cash_row "Taxes and fees" S754_nan ""].
Proof. repeat split; vm_compute; reflexivity. Qed.

(** ** The header renaming pass *)

Lemma dedupe_loop_acc raw seen deduped :
  dedupe_loop raw seen deduped = (deduped ++ dedupe_loop raw seen [])%list.
Proof.
  revert seen deduped. induction raw as [|h rest IH]; intros seen deduped; simpl.
  - by rewrite app_nil_r.
  - destruct (seen !! h) as [n|].
    + rewrite (IH _ (deduped ++ _)%list), (IH _ [_]). by rewrite <- app_assoc.
    + rewrite (IH _ (deduped ++ _)%list), (IH _ [_]). by rewrite <- app_assoc.
Qed.

Lemma occurrences_snoc h h' l :
  occurrences h (l ++ [h']) =
  if decide (h' = h) then S (occurrences h l) else occurrences h l.
Proof.
  unfold occurrences. rewrite filter_app, length_app. simpl.
  rewrite filter_cons. case_decide; simpl; lia.
Qed.

Lemma counts_step seen earlier h :
  counts seen earlier ->
  counts (<[h := S (occurrences h earlier)]> seen) (earlier ++ [h]).
Proof.
  intros Hc h'. rewrite occurrences_snoc.
  destruct (decide (h = h')) as [->|Hne].
  - by rewrite lookup_insert_eq.
  - rewrite lookup_insert_ne by done. apply Hc.
Qed.

Lemma dedupe_loop_lookup raw seen earlier i :
  counts seen earlier ->
  dedupe_loop raw seen [] !! i =
  (fun h => renamed h (occurrences h (earlier ++ take i raw))) <$> raw !! i.
Proof.
  revert seen earlier i. induction raw as [|h rest IH]; intros seen earlier i Hc.
  - done.
  - simpl. pose proof (Hc h) as Hh. pose proof (counts_step _ _ h Hc) as Hc'.
    destruct (occurrences h earlier) as [|c] eqn:Ho; rewrite Hh;
      rewrite dedupe_loop_acc; destruct i as [|i]; simpl.
    + by rewrite app_nil_r, Ho.
    + rewrite (IH _ (earlier ++ [h])%list i Hc'). by rewrite <- app_assoc.
    + by rewrite app_nil_r, Ho.
    + rewrite (IH _ (earlier ++ [h])%list i Hc'). by rewrite <- app_assoc.
Qed.

(** The renaming pass, position by position: the name at position [i] is
    the raw name there, unchanged when it has not occurred before and
    suffixed with [_k] when it is the [k]-th occurrence ([k >= 2]); the
    length and the order of the header are kept. *)
Lemma dedupe_headers_lookup raw i :
  dedupe_headers raw !! i =
  (fun h => renamed h (occurrences h (take i raw))) <$> raw !! i.
Proof.
  unfold dedupe_headers. by rewrite (dedupe_loop_lookup raw ∅ [] i).
Qed.

Lemma dedupe_headers_length raw :
  List.length (dedupe_headers raw) = List.length raw.
Proof.
  destruct (decide (List.length (dedupe_headers raw) = List.length raw)) as [|Hne];
    [done|exfalso].
  destruct (decide (List.length (dedupe_headers raw) < List.length raw)%nat).
  - pose proof (dedupe_headers_lookup raw (List.length (dedupe_headers raw))) as H.
    rewrite lookup_ge_None_2 in H by lia.
    destruct (lookup_lt_is_Some_2 raw (List.length (dedupe_headers raw))) as [h Hh];
      [lia|]. by rewrite Hh in H.
  - pose proof (dedupe_headers_lookup raw (List.length raw)) as H.
    rewrite (lookup_ge_None_2 raw) in H by lia.
    destruct (lookup_lt_is_Some_2 (dedupe_headers raw) (List.length raw)) as [h Hh];
      [lia|]. by rewrite Hh in H.
Qed.

(** The header [A, A, A] becomes [A, A_2, A_3], and a data row zipped
    against it exposes its three values under these names. *)
Lemma dedupe_headers_AAA :
  dedupe_headers ["A"; "A"; "A"] = ["A"; "A_2"; "A_3"]
  /\ make_record (dedupe_headers ["A"; "A"; "A"]) ["1"; "2"; "3"]
     = {[ "A" := "1"; "A_2" := "2"; "A_3" := "3" ]}.
Proof. split; vm_compute; reflexivity. Qed.

(** C1: the header [A, A, A_2] is renamed to [A, A_2, A_2]: the name given
    to the second [A] is the raw name of the third field, so the renamed
    header repeats a name and a data row zipped against it loses the value
    of the second field. *)
Theorem dedupe_headers_collision :
  dedupe_headers ["A"; "A"; "A_2"] = ["A"; "A_2"; "A_2"]
  /\ ~ NoDup (dedupe_headers ["A"; "A"; "A_2"])
  /\ make_record (dedupe_headers ["A"; "A"; "A_2"]) ["1"; "2"; "3"]
     = {[ "A" := "1"; "A_2" := "3" ]}.
Proof.
  assert (dedupe_headers ["A"; "A"; "A_2"] = ["A"; "A_2"; "A_2"]) as E
    by (vm_compute; reflexivity).
  split; [exact E|]. split.
  - rewrite E. intros H. apply NoDup_cons in H as [_ H].
    apply NoDup_cons in H as [H _]. apply H. in_list.
  - vm_compute. reflexivity.
Qed.

(** ** Building a raw record *)

Lemma dict_fold_notin (pairs : list (string * string)) (d : gmap string string) k :
  k ∉ pairs.*1 ->
  fold_left (fun d kv => <[kv.1 := kv.2]> d) pairs d !! k = d !! k.
Proof.
  revert d. induction pairs as [|p pairs IH]; intros d Hk; simpl; [done|].
  simpl in Hk. apply not_elem_of_cons in Hk as [Hne Hk].
  rewrite IH by done. by rewrite lookup_insert_ne.
Qed.

(** A key all of whose pairs carry the value [v] is bound to [v]. *)
Lemma dict_fold_lookup (pairs : list (string * string)) (d : gmap string string) k v :
  (forall p, p ∈ pairs -> p.1 = k -> p.2 = v) ->
  k ∈ pairs.*1 ->
  fold_left (fun d kv => <[kv.1 := kv.2]> d) pairs d !! k = Some v.
Proof.
  revert d. induction pairs as [|p pairs IH]; intros d Hv Hk; simpl.
  - by apply elem_of_nil in Hk.
  - destruct (decide (k ∈ pairs.*1)) as [Hin|Hnotin].
    + apply IH; [|done]. intros p' Hp'. apply Hv. by right.
    + rewrite dict_fold_notin by done. simpl in Hk.
      apply elem_of_cons in Hk as [->|Hk]; [|done].
      rewrite lookup_insert_eq. f_equal. apply Hv; [by left|done].
Qed.

Lemma dict_fold_dom (pairs : list (string * string)) (d : gmap string string) :
  dom (fold_left (fun d kv => <[kv.1 := kv.2]> d) pairs d)
  = dom d ∪ list_to_set pairs.*1.
Proof.
  revert d. induction pairs as [|p pairs IH]; intros d; simpl.
  - set_solver.
  - rewrite IH, dom_insert_L. set_solver.
Qed.

Lemma length_pad_data headers data :
  (List.length headers <= List.length (pad_data headers data))%nat.
Proof. unfold pad_data. rewrite length_app, length_replicate. lia. Qed.

Lemma pad_data_lookup headers data i :
  (i < List.length headers)%nat ->
  pad_data headers data !! i = Some (default "" (data !! i)).
Proof.
  intros Hi. unfold pad_data.
  destruct (decide (i < List.length data)%nat) as [Hlt|Hge].
  - rewrite lookup_app_l by done.
    destruct (lookup_lt_is_Some_2 data i Hlt) as [x ->]. done.
  - rewrite lookup_app_r by lia. rewrite (lookup_ge_None_2 data) by lia. simpl.
    apply lookup_replicate_2. lia.
Qed.

Lemma combine_fst_ge {A B : Type} (l : list A) (k : list B) :
  (List.length l <= List.length k)%nat -> (List.combine l k).*1 = l.
Proof.
  revert k. induction l as [|a l IH]; intros [|b k] Hlen; simpl in *;
    try done; try lia.
  f_equal. apply IH. lia.
Qed.

Lemma combine_take {A B : Type} (l : list A) (k : list B) :
  List.combine l (take (List.length l) k) = List.combine l k.
Proof.
  revert k. induction l as [|a l IH]; intros [|b k]; simpl; try done.
  by rewrite IH.
Qed.

Lemma combine_app_eq {A B : Type} (l1 l2 : list A) (k1 k2 : list B) :
  List.length l1 = List.length k1 ->
  List.combine (l1 ++ l2) (k1 ++ k2) = (List.combine l1 k1 ++ List.combine l2 k2)%list.
Proof.
  revert k1. induction l1 as [|a l1 IH]; intros [|b k1] Hlen; simpl in *;
    try done. f_equal. apply IH. lia.
Qed.

Lemma elem_of_combine {A B : Type} (l : list A) (k : list B) p :
  p ∈ List.combine l k -> exists i, l !! i = Some p.1 /\ k !! i = Some p.2.
Proof.
  revert k. induction l as [|a l IH]; intros [|b k] Hp; simpl in Hp;
    try by apply elem_of_nil in Hp.
  apply elem_of_cons in Hp as [->|Hp].
  - by exists 0%nat.
  - destruct (IH _ Hp) as (i & ? & ?). by exists (S i).
Qed.

Lemma make_record_dom headers data :
  dom (make_record headers data) = list_to_set headers.
Proof.
  unfold make_record, dict_of_pairs. rewrite dict_fold_dom.
  rewrite combine_fst_ge by apply length_pad_data. set_solver.
Qed.

(** A header name all of whose positions hold the value [v] in the padded
    row is bound to [v]. *)
Lemma make_record_lookup headers data i h v :
  headers !! i = Some h ->
  (forall j, headers !! j = Some h -> default "" (data !! j) = v) ->
  make_record headers data !! h = Some v.
Proof.
  intros Hi Hv. unfold make_record, dict_of_pairs. apply dict_fold_lookup.
  - intros p Hp Hk. destruct (elem_of_combine _ _ _ Hp) as (j & Hj & Hd).
    rewrite Hk in Hj. rewrite pad_data_lookup in Hd
      by (apply lookup_lt_is_Some; eauto).
    injection Hd as <-. by apply Hv.
  - rewrite combine_fst_ge by apply length_pad_data.
    by eapply list_elem_of_lookup_2.
Qed.

Lemma make_record_truncates headers data :
  make_record headers data = make_record headers (take (List.length headers) data).
Proof.
  unfold make_record. f_equal.
  destruct (decide (List.length data <= List.length headers)%nat) as [Hle|Hgt].
  - by rewrite take_ge.
  - unfold pad_data. rewrite length_take.
    replace (List.length headers - List.length data)%nat with 0%nat by lia.
    replace (List.length headers - _ `min` _)%nat with 0%nat by lia.
    simpl. rewrite !app_nil_r. by rewrite combine_take.
Qed.

(** The record built from a data row binds exactly the names of the
    (renamed) header; a name at a position the row does not reach is bound
    to the empty string; the fields of the row beyond the header are
    ignored; and when the header names are distinct each is bound to the
    field at its position, or to the empty string past the end of the row. *)
Theorem make_record_pads_and_truncates headers data :
  dom (make_record headers data) = list_to_set headers
  /\ (forall i h, headers !! i = Some h ->
        (List.length data <= i)%nat -> make_record headers data !! h = Some "")
  /\ make_record headers data = make_record headers (take (List.length headers) data)
  /\ (NoDup headers -> forall i h, headers !! i = Some h ->
        make_record headers data !! h = Some (default "" (data !! i))).
Proof.
  split; [apply make_record_dom|]. split; [|split; [apply make_record_truncates|]].
  - intros i h Hi Hlen.
    (* only the pairs past the end of the row matter: a later pair
       overrides an earlier one *)
    unfold make_record, dict_of_pairs.
    rewrite <- (take_drop (List.length data) headers) at 1.
    rewrite <- (take_drop (List.length data) (pad_data headers data)).
    assert (List.length (take (List.length data) headers)
            = List.length (take (List.length data) (pad_data headers data))) as Hl.
    { rewrite !length_take. pose proof (length_pad_data headers data).
      apply lookup_lt_Some in Hi. lia. }
    rewrite combine_app_eq by done. rewrite fold_left_app.
    apply dict_fold_lookup.
    + intros p Hp Hk. destruct (elem_of_combine _ _ _ Hp) as (j & Hj & Hd).
      rewrite lookup_drop in Hd. rewrite lookup_drop in Hj.
      rewrite pad_data_lookup in Hd by (apply lookup_lt_is_Some; eauto).
      rewrite lookup_ge_None_2 in Hd by lia. by injection Hd as <-.
    + rewrite combine_fst_ge.
      * apply list_elem_of_lookup. exists (i - List.length data)%nat.
        rewrite lookup_drop. rewrite <- Hi. f_equal. lia.
      * rewrite !length_drop. pose proof (length_pad_data headers data). lia.
  - intros Hnd i h Hi. eapply make_record_lookup; [exact Hi|].
    intros j Hj. by rewrite (NoDup_lookup _ _ _ _ Hnd Hj Hi).
Qed.

(** ** The parsing loop *)

(** An accepted Data row appends the record built from its trailing
    fields and the active header to the list of its section. *)
Lemma parse_row_data st c0 c1 fields h hs l :
  Py.strip c1 = "Data" ->
  current_section st = Some (Py.strip c0) ->
  current_headers st = Some (h :: hs) ->
  sections st !! Py.strip c0 = Some l ->
  parse_row st (c0 :: c1 :: fields) =
  Ok {| sections := <[Py.strip c0 := (l ++ [make_record (h :: hs) fields])%list]>
                      (sections st);
        current_section := current_section st;
        current_headers := current_headers st |}.
Proof.
  intros Hd Hs Hh Hl. unfold parse_row. rewrite Hd, Hh, Hl. simpl.
  by rewrite bool_decide_eq_true_2.
Qed.

(** A Header row registers its section and installs the renamed header. *)
Lemma parse_row_header st c0 c1 fields :
  Py.strip c1 = "Header" ->
  exists st', parse_row st (c0 :: c1 :: fields) = Ok st'
    /\ current_section st' = Some (Py.strip c0)
    /\ current_headers st' = Some (dedupe_headers fields)
    /\ is_Some (sections st' !! Py.strip c0).
Proof.
  intros Hh. unfold parse_row. rewrite Hh. simpl. eexists. split; [done|].
  simpl. repeat split. destruct (sections st !! Py.strip c0) eqn:E.
  - by rewrite E.
  - by rewrite lookup_insert_eq.
Qed.

Lemma parse_row_wf st row :
  parser_wf st -> exists st', parse_row st row = Ok st' /\ parser_wf st'.
Proof.
  intros Hwf. destruct row as [|c0 [|c1 fields]]; simpl; eauto.
  destruct (String.eqb (Py.strip c1) "Header") eqn:Eh.
  - eexists. split; [done|]. intros s [= <-]. simpl.
    destruct (sections st !! Py.strip c0) eqn:E.
    + by rewrite E.
    + by rewrite lookup_insert_eq.
  - destruct (String.eqb (Py.strip c1) "Data") eqn:Ed; simpl; eauto.
    case_bool_decide as Hs; simpl; eauto.
    destruct (current_headers st) as [[|h hs]|] eqn:Ehd; eauto.
    destruct (Hwf _ Hs) as [l Hl]. rewrite Hl. eexists. split; [done|].
    intros s Hs'. simpl in *. destruct (decide (Py.strip c0 = s)) as [->|Hne].
    + by rewrite lookup_insert_eq.
    + rewrite lookup_insert_ne by done. by apply Hwf.
Qed.

(** The parser never raises: short rows, orphaned Data rows and rows of
    another kind are dropped. *)
Lemma parse_activity_statement_total rows :
  exists sections, parse_activity_statement rows = Ok sections.
Proof.
  unfold parse_activity_statement.
  assert (forall st, parser_wf st -> exists st', parse_rows st rows = Ok st') as H.
  { induction rows as [|row rest IH]; intros st Hwf; simpl; eauto.
    destruct (parse_row_wf st row Hwf) as (st' & -> & Hwf'). simpl.
    by apply IH. }
  destruct (H parser_init) as [st' ->]; [by intros s|]. simpl. eauto.
Qed.

(** ** Equality of keys *)

Lemma float_eq_true x y :
  Py.float_eq x y = true ->
  (x = y /\ x <> S754_nan) \/ (is_zero x /\ is_zero y).
Proof.
  unfold Py.float_eq, SFeqb.
  destruct x as [sx|sx| |sx mx ex], y as [sy|sy| |sy my ey]; simpl;
    try done; try (by right); try (by destruct sx); try (by destruct sy).
  - destruct sx, sy; try done; by left.
  - assert (forall c : comparison, (match c with Eq => true | _ => false end) = true
            -> c = Eq) as HEq by (by intros []).
    destruct sx, sy; try done; destruct (ex ?= ey)%Z eqn:Ee; try done;
      intros H; apply HEq in H; apply Z.compare_eq in Ee; subst; left;
      (split; [|done]); f_equal.
    + destruct (Pos.compare_cont Eq mx my) eqn:Em; try done.
      by apply Pos.compare_eq in Em.
    + by apply Pos.compare_eq in H.
Qed.

Lemma float_eq_refl x : x <> S754_nan -> Py.float_eq x x = true.
Proof.
  unfold Py.float_eq, SFeqb. destruct x as [sx|sx| |sx mx ex]; simpl; try done.
  - by destruct sx.
  - intros _. change (Pos.compare_cont Eq mx mx) with (mx ?= mx)%positive.
    rewrite Z.compare_refl, Pos.compare_refl. by destruct sx.
Qed.

Lemma float_eq_zero x y : is_zero x -> is_zero y -> Py.float_eq x y = true.
Proof. by destruct x, y. Qed.

Lemma float_eq_sym x y : Py.float_eq x y = true -> Py.float_eq y x = true.
Proof.
  intros H. destruct (float_eq_true _ _ H) as [[<- Hn]|[Hx Hy]].
  - by apply float_eq_refl.
  - by apply float_eq_zero.
Qed.

Lemma float_eq_trans x y z :
  Py.float_eq x y = true -> Py.float_eq y z = true -> Py.float_eq x z = true.
Proof.
  intros H1 H2.
  destruct (float_eq_true _ _ H1) as [[<- Hn]|[Hx Hy]]; [done|].
  destruct (float_eq_true _ _ H2) as [[<- Hn]|[_ Hz]]; [done|].
  by apply float_eq_zero.
Qed.

Lemma key_eq_true k1 k2 :
  key_eq k1 k2 = true <->
  k1.1.1.1.1 = k2.1.1.1.1 /\ k1.1.1.1.2 = k2.1.1.1.2
  /\ Py.float_eq k1.1.1.2 k2.1.1.2 = true
  /\ k1.1.2 = k2.1.2 /\ k1.2 = k2.2.
Proof.
  destruct k1 as [[[[sy1 sd1] q1] fp1] ct1], k2 as [[[[sy2 sd2] q2] fp2] ct2].
  simpl. rewrite !andb_true_iff, !String.eqb_eq. tauto.
Qed.

Lemma key_eq_sym k1 k2 : key_eq k1 k2 = true -> key_eq k2 k1 = true.
Proof.
  rewrite !key_eq_true. intros (-> & -> & Hq & -> & ->).
  repeat split; try done. by apply float_eq_sym.
Qed.

Lemma key_eq_trans k1 k2 k3 :
  key_eq k1 k2 = true -> key_eq k2 k3 = true -> key_eq k1 k3 = true.
Proof.
  rewrite !key_eq_true. intros (-> & -> & Hq & -> & ->) (-> & -> & Hq' & -> & ->).
  repeat split; try done. by eapply float_eq_trans.
Qed.

Lemma key_eq_refl r : Qty r <> S754_nan -> key_eq (row_key r) (row_key r) = true.
Proof.
  intros Hn. apply key_eq_true. repeat split; try done. by apply float_eq_refl.
Qed.

Lemma key_eq_nan r k : Qty r = S754_nan -> key_eq k (row_key r) = false.
Proof.
  intros Hn. destruct (key_eq k (row_key r)) eqn:E; [|done].
  apply key_eq_true in E as (_ & _ & Hq & _). simpl in Hq. rewrite Hn in Hq.
  unfold Py.float_eq, SFeqb in Hq. by destruct (k.1.1.2).
Qed.

(** The key does not read the Commission cell. *)
Lemma row_key_with_commission c r : row_key (with_commission c r) = row_key r.
Proof. done. Qed.

(** ** Deduplication *)

Lemma key_among_app k l1 l2 :
  key_among k (l1 ++ l2) = key_among k l1 || key_among k l2.
Proof. apply existsb_app. Qed.

Lemma key_among_true k rows :
  key_among k rows = true <->
  exists r', r' ∈ rows /\ key_eq (row_key r') k = true.
Proof.
  unfold key_among. rewrite existsb_exists.
  split; intros (r' & H1 & H2); exists r'; split; try done;
    by apply list_elem_of_In.
Qed.

Lemma key_in_true k seen :
  key_in k seen = true <-> exists k', k' ∈ seen /\ key_eq k' k = true.
Proof.
  unfold key_in. rewrite existsb_exists.
  split; intros (k' & H1 & H2); exists k'; split; try done;
    by apply list_elem_of_In.
Qed.

Lemma seen_agrees_add seen earlier r :
  seen_agrees seen earlier ->
  seen_agrees (row_key r :: seen) (earlier ++ [r]).
Proof.
  intros Ha k. rewrite key_among_app.
  change (key_in k (row_key r :: seen))
    with (key_eq (row_key r) k || key_in k seen).
  rewrite Ha. unfold key_among at 3. simpl.
  rewrite orb_false_r. apply orb_comm.
Qed.

Lemma seen_agrees_skip seen earlier r :
  seen_agrees seen earlier -> key_in (row_key r) seen = true ->
  seen_agrees seen (earlier ++ [r]).
Proof.
  intros Ha Hin k. rewrite key_among_app, <- Ha.
  change (key_among k [r]) with (key_eq (row_key r) k || false).
  destruct (key_eq (row_key r) k) eqn:E; [|by rewrite !orb_false_r].
  rewrite orb_true_r. apply key_in_true.
  apply key_in_true in Hin as (k' & Hk' & Heq).
  exists k'. split; [done|]. by eapply key_eq_trans.
Qed.

Lemma dedup_loop_spec all_rows seen deduped earlier :
  seen_agrees seen earlier ->
  dedup_loop all_rows seen deduped
  = (deduped ++ first_occurrences earlier all_rows)%list.
Proof.
  revert seen deduped earlier.
  induction all_rows as [|r rest IH]; intros seen deduped earlier Ha.
  - simpl. by rewrite app_nil_r.
  - cbn [dedup_loop first_occurrences].
    change (existsb _ earlier) with (key_among (row_key r) earlier).
    rewrite <- Ha. destruct (key_in (row_key r) seen) eqn:Hin; cbn [negb].
    + apply IH. by apply seen_agrees_skip.
    + rewrite (IH _ _ (earlier ++ [r])%list) by (by apply seen_agrees_add).
      by rewrite <- app_assoc.
Qed.

Lemma dedup_first_occurrences all_rows :
  dedup all_rows = first_occurrences [] all_rows.
Proof. unfold dedup. by rewrite (dedup_loop_spec all_rows [] [] []). Qed.

Lemma first_occurrences_app earlier l1 l2 :
  first_occurrences earlier (l1 ++ l2)
  = (first_occurrences earlier l1 ++ first_occurrences (earlier ++ l1) l2)%list.
Proof.
  revert earlier. induction l1 as [|r l1 IH]; intros earlier; simpl.
  - by rewrite app_nil_r.
  - rewrite IH, <- app_assoc. simpl. by destruct (existsb _ earlier).
Qed.

(** Rows whose keys all stand among the earlier rows are all dropped. *)
Lemma first_occurrences_covered earlier l :
  Forall (fun r => key_among (row_key r) earlier = true) l ->
  first_occurrences earlier l = [].
Proof.
  revert earlier. induction l as [|r l IH]; intros earlier Hc; [done|].
  cbn [first_occurrences].
  apply Forall_cons in Hc as [Hr Hc]. unfold key_among in Hr. rewrite Hr.
  apply IH. eapply Forall_impl; [exact Hc|]. intros r' Hr'. simpl in *.
  rewrite key_among_app, Hr'. done.
Qed.

(** X25: merging the rows of a file with themselves changes nothing when
    no quantity is NaN. *)
Lemma dedup_app_self xs :
  Forall (fun r => Qty r <> S754_nan) xs -> dedup (xs ++ xs) = dedup xs.
Proof.
  intros Hn. rewrite !dedup_first_occurrences, first_occurrences_app. simpl.
  rewrite (first_occurrences_covered xs xs); [by rewrite app_nil_r|].
  apply Forall_forall. intros r Hr. apply key_among_true. exists r.
  split; [done|]. apply key_eq_refl. rewrite Forall_forall in Hn. by apply Hn.
Qed.

(** A row with a NaN quantity is never dropped. *)
Lemma first_occurrences_nan earlier r rest :
  Qty r = S754_nan ->
  first_occurrences earlier (r :: rest)
  = r :: first_occurrences (earlier ++ [r]) rest.
Proof.
  intros Hn. cbn [first_occurrences].
  assert (existsb (fun r' => key_eq (row_key r') (row_key r)) earlier = false)
    as ->; [|done].
  induction earlier as [|r' earlier IH]; [done|].
  cbn [existsb]. by rewrite key_eq_nan, IH.
Qed.

(** The merger keeps a row exactly when no row before it, in
    file-then-row order, has an equal (Symbol, Side, Qty, Fill Price,
    Closing Time); the key does not read Commission; and of two rows equal
    in these five fields the merged output holds the first alone, with its
    own Commission. *)
Theorem dedup_keeps_first_occurrence all_rows :
  dedup all_rows = first_occurrences [] all_rows
  /\ (forall r c, row_key (with_commission c r) = row_key r)
  /\ (forall r1 r2, key_eq (row_key r1) (row_key r2) = true ->
        dedup ([r1] ++ [r2]) = [r1] /\ merge ([r1] ++ [r2]) = [r1]).
Proof.
  split; [apply dedup_first_occurrences|]. split; [done|].
  intros r1 r2 Heq. unfold merge. rewrite dedup_first_occurrences.
  cbn [app first_occurrences existsb]. by rewrite Heq.
Qed.

(** Two statements that share a trade, with commissions 1.01 and 1.0:
    one merged row, with the commission of the first statement. *)
Lemma main_two_files :
  main py_float [trade_file "-1.01"; trade_file "-1.0"] ∅ = Ok [sell_50_row].
Proof. vm_compute. reflexivity. Qed.

(** C6: a statement whose one trade has the quantity "nan" yields one row;
    merged with itself it yields two, since the key of that row equals no
    key, its own included. *)
Theorem dedup_self_merge_nan :
  process_activity_statement py_float nan_trade_file ∅ = Ok [nan_row]
  /\ dedup [nan_row] = [nan_row]
  /\ dedup ([nan_row] ++ [nan_row]) = [nan_row; nan_row]
  /\ main py_float [nan_trade_file] ∅ = Ok [nan_row]
  /\ main py_float [nan_trade_file; nan_trade_file] ∅ = Ok [nan_row; nan_row].
Proof. repeat split; vm_compute; reflexivity. Qed.

(** ** Sorting *)

Lemma sort_key_Closing_Time r : sort_key r = Closing_Time r.
Proof.
  unfold sort_key, truthy. destruct (String.eqb_spec (Closing_Time r) ""); by simpl.
Qed.

Lemma ltb_false_leb s1 s2 : String.ltb s1 s2 = false -> String.leb s2 s1 = true.
Proof.
  unfold String.ltb, String.leb.
  pose proof (String.compare_antisym s1 s2) as H.
  destruct (s1 ?= s2)%string, (s2 ?= s1)%string; done.
Qed.

Lemma ltb_true_leb s1 s2 : String.ltb s1 s2 = true -> String.leb s1 s2 = true.
Proof. unfold String.ltb, String.leb. by destruct (s1 ?= s2)%string. Qed.

Lemma ltb_true_ne s1 s2 : String.ltb s1 s2 = true -> s1 <> s2.
Proof.
  unfold String.ltb. intros H ->.
  pose proof (String.compare_antisym s2 s2) as E.
  by destruct (s2 ?= s2)%string.
Qed.

Lemma leb_trans s1 s2 s3 :
  String.leb s1 s2 = true -> String.leb s2 s3 = true -> String.leb s1 s3 = true.
Proof.
  intros H1 H2. apply Is_true_true_1.
  change (String.le s1 s3). transitivity s2; unfold String.le;
    by apply Is_true_true_2.
Qed.

Lemma leb_empty s : String.leb s "" = true -> s = "".
Proof. by destruct s. Qed.

Lemma empty_leb s : String.leb "" s = true.
Proof. by destruct s. Qed.

Lemma key_le_trans a b c : key_le a b -> key_le b c -> key_le a c.
Proof. unfold key_le. apply leb_trans. Qed.

Lemma insert_row_perm x l : insert_row x l ≡ₚ x :: l.
Proof.
  induction l as [|y l IH]; simpl; [done|].
  destruct (String.ltb _ _); [|done]. rewrite IH. apply perm_swap.
Qed.

Lemma sort_rows_perm l : sort_rows l ≡ₚ l.
Proof.
  induction l as [|x l IH]; simpl; [done|].
  rewrite insert_row_perm. by constructor.
Qed.

Lemma insert_row_sorted x l :
  StronglySorted key_le l -> StronglySorted key_le (insert_row x l).
Proof.
  induction l as [|y l IH]; intros Hs; simpl.
  - by repeat constructor.
  - apply StronglySorted_cons in Hs as [Hy Hl].
    destruct (String.ltb (sort_key y) (sort_key x)) eqn:E.
    + apply StronglySorted_cons. split; [|by apply IH].
      rewrite insert_row_perm. constructor; [|done]. by apply ltb_true_leb.
    + apply ltb_false_leb in E. apply StronglySorted_cons. split.
      * constructor; [done|]. eapply Forall_impl; [exact Hy|].
        intros z Hz. by eapply key_le_trans.
      * by apply StronglySorted_cons.
Qed.

Lemma sort_rows_sorted l : StronglySorted key_le (sort_rows l).
Proof.
  induction l as [|x l IH]; simpl; [constructor|]. by apply insert_row_sorted.
Qed.

Lemma insert_row_filter (P : tv_row -> Prop) `{forall r, Decision (P r)} x l :
  (forall a b, P a -> P b -> sort_key a = sort_key b) ->
  filter P (insert_row x l) = filter P (x :: l).
Proof.
  intros HP. induction l as [|y l IH]; simpl; [done|].
  destruct (String.ltb (sort_key y) (sort_key x)) eqn:E; [|done].
  apply ltb_true_ne in E. rewrite filter_cons, IH, !filter_cons.
  destruct (decide (P y)), (decide (P x)); try done.
  destruct E. by apply HP.
Qed.

(** Stability: rows with the same timestamp keep their order. *)
Lemma sort_rows_stable l t :
  filter (fun r => Closing_Time r = t) (sort_rows l)
  = filter (fun r => Closing_Time r = t) l.
Proof.
  induction l as [|x l IH]; simpl; [done|].
  rewrite insert_row_filter.
  - by rewrite !filter_cons, IH.
  - intros a b Ha Hb. rewrite !sort_key_Closing_Time. congruence.
Qed.

Lemma StronglySorted_lookup {A : Type} (R : A -> A -> Prop) l i j a b :
  StronglySorted R l -> (i < j)%nat ->
  l !! i = Some a -> l !! j = Some b -> R a b.
Proof.
  intros Hs. revert i j. induction Hs as [|x l Hs IH Hx]; intros i j Hij Hi Hj.
  - done.
  - destruct j as [|j]; [lia|]. simpl in Hj. destruct i as [|i]; simpl in Hi.
    + injection Hi as <-. rewrite Forall_forall in Hx. apply Hx.
      by eapply list_elem_of_lookup_2.
    + apply (IH i j); [lia|done..].
Qed.

(** C5: the merged output is the deduplicated rows rearranged in ascending
    order of Closing Time, compared as strings: each row's timestamp is at
    most the next row's, the rows with an empty timestamp come first, and
    rows with the same timestamp keep their order. *)
Theorem merge_sorted_stable all_rows :
  let out := merge all_rows in
  out ≡ₚ dedup all_rows
  /\ (forall i a b, out !! i = Some a -> out !! S i = Some b ->
        String.leb (Closing_Time a) (Closing_Time b) = true)
  /\ (forall i j a b, (i < j)%nat -> out !! i = Some a -> out !! j = Some b ->
        Closing_Time b = "" -> Closing_Time a = "")
  /\ (forall t, filter (fun r => Closing_Time r = t) out
               = filter (fun r => Closing_Time r = t) (dedup all_rows)).
Proof.
  intros out. unfold out, merge.
  pose proof (sort_rows_sorted (dedup all_rows)) as Hs.
  split; [apply sort_rows_perm|]. split; [|split].
  - intros i a b Hi Hj.
    pose proof (StronglySorted_lookup _ _ i (S i) a b Hs (Nat.lt_succ_diag_r i) Hi Hj)
      as Hab.
    unfold key_le in Hab. by rewrite !sort_key_Closing_Time in Hab.
  - intros i j a b Hij Hi Hj Hb.
    pose proof (StronglySorted_lookup _ _ i j a b Hs Hij Hi Hj) as Hab.
    unfold key_le in Hab. rewrite !sort_key_Closing_Time, Hb in Hab.
    by apply leb_empty.
  - apply sort_rows_stable.
Qed.

Lemma merge_unsorted_rows :
  Closing_Time <$> merge unsorted_rows
  = [""; ""; "2025-01-01 0:00:00"; "2025-01-01 0:00:00"; "2025-03-01 0:00:00"]
  /\ Side <$> merge unsorted_rows
     = ["Dividend"; "Deposit"; "Withdrawal"; "Dividend"; "Deposit"].
Proof. split; vm_compute; reflexivity. Qed.

Lemma key_le_refl a : key_le a a.
Proof.
  unfold key_le. apply Is_true_true_1. change (String.le (sort_key a) (sort_key a)).
  reflexivity.
Qed.

Lemma key_le_antisym a b : key_le a b -> key_le b a -> Closing_Time a = Closing_Time b.
Proof.
  unfold key_le. rewrite !sort_key_Closing_Time. apply String.leb_antisym.
Qed.

Lemma sorted_head_le a l b :
  StronglySorted key_le (a :: l) -> b ∈ a :: l -> key_le a b.
Proof.
  intros Hs Hb. apply StronglySorted_cons in Hs as [Ha _].
  apply elem_of_cons in Hb as [->|Hb]; [apply key_le_refl|].
  rewrite Forall_forall in Ha. by apply Ha.
Qed.

(** A sorted list is determined by the order of the rows of each
    timestamp: any stable sort by [<] on the key returns [sort_rows]. *)
Lemma sorted_stable_unique l1 l2 :
  StronglySorted key_le l1 -> StronglySorted key_le l2 ->
  (forall t, filter (fun r => Closing_Time r = t) l1
             = filter (fun r => Closing_Time r = t) l2) ->
  l1 = l2.
Proof.
  revert l2. induction l1 as [|a l1 IH]; intros [|b l2] Hs1 Hs2 Hf.
  - done.
  - specialize (Hf (Closing_Time b)). rewrite filter_cons_True in Hf by done.
    discriminate Hf.
  - specialize (Hf (Closing_Time a)). rewrite filter_cons_True in Hf by done.
    discriminate Hf.
  - assert (Closing_Time a = Closing_Time b) as Hab.
    { apply key_le_antisym.
      - apply (sorted_head_le a l1 b Hs1).
        assert (b ∈ filter (fun r => Closing_Time r = Closing_Time b) (a :: l1)) as Hb.
        { rewrite Hf. rewrite filter_cons_True by done. by left. }
        by apply list_elem_of_filter in Hb as [_ Hb].
      - apply (sorted_head_le b l2 a Hs2).
        assert (a ∈ filter (fun r => Closing_Time r = Closing_Time a) (b :: l2)) as Ha.
        { rewrite <- Hf. rewrite filter_cons_True by done. by left. }
        by apply list_elem_of_filter in Ha as [_ Ha]. }
    pose proof (Hf (Closing_Time a)) as Hh.
    rewrite filter_cons_True in Hh by done.
    rewrite (filter_cons_True _ b) in Hh by done.
    injection Hh as -> Ht. f_equal.
    apply StronglySorted_cons in Hs1 as [_ Hs1].
    apply StronglySorted_cons in Hs2 as [_ Hs2].
    apply IH; [done..|]. intros t.
    destruct (decide (Closing_Time b = t)) as [<-|Hne]; [done|].
    specialize (Hf t). by rewrite !filter_cons_False in Hf by done.
Qed.

(** X26: the sorted list is the only rearrangement that is in ascending
    order of Closing Time and keeps the order of the rows of each
    timestamp: whatever stable sort [list.sort] runs, it returns
    [sort_rows]. *)
Lemma stable_sort_is_sort_rows l l' :
  StronglySorted key_le l' ->
  (forall t, filter (fun r => Closing_Time r = t) l'
             = filter (fun r => Closing_Time r = t) l) ->
  l' = sort_rows l.
Proof.
  intros Hs Hf. apply sorted_stable_unique; [done|apply sort_rows_sorted|].
  intros t. by rewrite Hf, sort_rows_stable.
Qed.

(** ** Deduplication twice *)

Lemma fresh_chain_fixed earlier out :
  fresh_chain earlier out -> first_occurrences earlier out = out.
Proof.
  revert earlier. induction out as [|r out IH]; intros earlier Hf; [done|].
  destruct Hf as [Hr Hf]. cbn [first_occurrences].
  change (existsb _ earlier) with (key_among (row_key r) earlier).
  rewrite Hr. f_equal. by apply IH.
Qed.

Lemma fresh_chain_weaken e1 e2 out :
  (forall k, key_among k e2 = true -> key_among k e1 = true) ->
  fresh_chain e1 out -> fresh_chain e2 out.
Proof.
  revert e1 e2. induction out as [|r out IH]; intros e1 e2 He Hf; [done|].
  destruct Hf as [Hr Hf]. split.
  - destruct (key_among (row_key r) e2) eqn:E; [|done].
    apply He in E. congruence.
  - apply (IH (e1 ++ [r])%list); [|done]. intros k.
    rewrite !key_among_app, !orb_true_iff. intros [?|?]; auto.
Qed.

Lemma first_occurrences_fresh earlier l :
  fresh_chain earlier (first_occurrences earlier l).
Proof.
  revert earlier. induction l as [|r l IH]; intros earlier; [done|].
  cbn [first_occurrences].
  change (existsb _ earlier) with (key_among (row_key r) earlier).
  destruct (key_among (row_key r) earlier) eqn:E.
  - apply (fresh_chain_weaken (earlier ++ [r])%list); [|apply IH].
    intros k Hk. by rewrite key_among_app, Hk.
  - split; [done|apply IH].
Qed.

(** X24: deduplicating an already deduplicated list changes nothing. *)
Lemma dedup_idempotent all_rows : dedup (dedup all_rows) = dedup all_rows.
Proof.
  rewrite !dedup_first_occurrences. apply fresh_chain_fixed,
    first_occurrences_fresh.
Qed.

(** ** The builtins on examples *)

Lemma strip_examples :
  Py.strip "  AAPL " = "AAPL" /\ Py.strip "   " = "" /\ Py.strip "" = "".
Proof. repeat split. Qed.

Lemma replace_examples :
  Py.replace ", " " " "2025-08-14, 11:32:43" = "2025-08-14 11:32:43"
  /\ Py.replace ", " " " "a, b, , c" = "a b  c".
Proof. split; reflexivity. Qed.

Lemma py_float_examples :
  py_float "-50" = Some (S754_finite true 7036874417766400 (-47))
  /\ py_float " 0.1 " = Some (S754_finite false 7205759403792794 (-56))
  /\ py_float "-0.0" = Some (S754_zero true)
  /\ py_float "1e400" = Some (S754_infinity false)
  /\ py_float "NaN" = Some S754_nan
  /\ py_float "1,000.00" = None
  /\ py_float "" = None.
Proof. repeat split; vm_compute; reflexivity. Qed.

(** The cash sign rule and the dividend and tax filters on examples. *)
Lemma cash_examples :
  convert_cash_transactions py_float [cash_record "1000.00"; cash_record "-250.50"] ""
  = Ok [ cash_row "Deposit" (S754_finite false 8796093022208000 (-43))
           "2025-01-02 0:00:00";
         cash_row "Withdrawal" (S754_finite false 8813685208252416 (-45))
           "2025-01-02 0:00:00" ]
  /\ convert_dividends py_float [cash_record "-5.00"] = Ok []
  /\ convert_taxes py_float [cash_record "2.00"] = Ok []
  /\ convert_taxes py_float [cash_record "-1.00"]
     = Ok [ cash_row "Taxes and fees" (S754_finite false 4503599627370496 (-52)) "" ].
Proof. repeat split; vm_compute; reflexivity. Qed.

(** ** [build_symbol_exchange_map] *)

Lemma flex_entry_None_short row :
  ~ short_flex_row row -> flex_entry row = None ->
  forall mapping, flex_row mapping row = Some mapping.
Proof.
  unfold short_flex_row, flex_entry, flex_row, flex_get. intros Hs He mapping.
  destruct (row !! "Symbol") as [[s|]|]; [|tauto|];
    destruct (row !! "ListingExchange") as [[e|]|]; try tauto;
    destruct (truthy _ && truthy _); done.
Qed.

Lemma flex_row_entry row sym v mapping :
  flex_entry row = Some (sym, v) ->
  flex_row mapping row =
  Some (if bool_decide (is_Some (mapping !! sym)) then mapping
        else <[sym := v]> mapping).
Proof.
  unfold flex_entry, flex_row. intros He.
  destruct (flex_get row "Symbol") as [s|]; [|done].
  destruct (flex_get row "ListingExchange") as [e|]; [|done].
  destruct (truthy (Py.strip s) && truthy (Py.strip e)); [|done].
  injection He as <- <-. by destruct (bool_decide _).
Qed.

Lemma flex_row_short row mapping :
  short_flex_row row -> flex_row mapping row = None.
Proof.
  unfold short_flex_row, flex_row, flex_get. intros [->| ->]; [done|].
  by destruct (row !! "Symbol") as [[s|]|].
Qed.

Lemma flex_entry_short row : short_flex_row row -> flex_entry row = None.
Proof.
  unfold short_flex_row, flex_entry, flex_get. intros [->| ->]; [done|].
  by destruct (row !! "Symbol") as [[s|]|].
Qed.

(** The loop over the rows adds to [mapping] the pairs of the rows, an
    earlier binding winning over a later one. *)
Lemma flex_rows_union mapping reader :
  Forall (fun row => ~ short_flex_row row) reader ->
  flex_rows mapping reader
  = Some (mapping ∪ list_to_map (omap flex_entry reader)).
Proof.
  intros Hr. revert mapping.
  induction Hr as [|row rest Hrow _ IH]; intros mapping; simpl.
  - by rewrite map_union_empty.
  - destruct (flex_entry row) as [[sym v]|] eqn:He.
    + rewrite (flex_row_entry _ _ _ _ He), IH. f_equal. simpl.
      case_bool_decide as Hin.
      * destruct Hin as [w Hw]. apply map_eq. intros k.
        rewrite !lookup_union. destruct (decide (k = sym)) as [->|Hne].
        -- rewrite Hw, lookup_insert_eq. by destruct (list_to_map _ !! sym).
        -- by rewrite lookup_insert_ne.
      * apply eq_None_not_Some in Hin.
        by rewrite <- insert_union_l, <- insert_union_r.
    + by rewrite (flex_entry_None_short _ Hrow He), IH.
Qed.

Lemma flex_rows_None mapping reader :
  flex_rows mapping reader = None <-> Exists short_flex_row reader.
Proof.
  revert mapping. induction reader as [|row rest IH]; intros mapping; simpl.
  - split; [done|]. by intros ?%Exists_nil.
  - rewrite Exists_cons. destruct (decide (short_flex_row row)) as [Hs|Hs].
    + rewrite flex_row_short by done. tauto.
    + destruct (flex_row mapping row) as [mapping'|] eqn:Hrow.
      * rewrite IH. tauto.
      * exfalso. destruct (flex_entry row) as [[sym v]|] eqn:He.
        -- by rewrite (flex_row_entry _ _ _ _ He) in Hrow.
        -- by rewrite (flex_entry_None_short _ Hs He) in Hrow.
Qed.

Lemma flex_loop_union mapping flex_files :
  Forall (fun row => ~ short_flex_row row) (concat flex_files) ->
  flex_loop mapping flex_files
  = Some (mapping ∪ list_to_map (flex_entries flex_files)).
Proof.
  unfold flex_entries. revert mapping.
  induction flex_files as [|reader rest IH]; intros mapping Hr; simpl in *.
  - by rewrite map_union_empty.
  - apply Forall_app in Hr as [Hr1 Hr2].
    rewrite flex_rows_union, IH by done. f_equal.
    rewrite omap_app, list_to_map_app. by rewrite (assoc_L (∪)).
Qed.

Lemma flex_loop_None mapping flex_files :
  flex_loop mapping flex_files = None <->
  Exists short_flex_row (concat flex_files).
Proof.
  revert mapping. induction flex_files as [|reader rest IH]; intros mapping; simpl.
  - split; [done|]. by intros ?%Exists_nil.
  - rewrite Exists_app. destruct (flex_rows mapping reader) as [mapping'|] eqn:Hr.
    + rewrite IH. split; [tauto|]. intros [H|H]; [|done].
      apply (flex_rows_None mapping) in H. congruence.
    + split; [|done]. intros _. left. by apply (flex_rows_None mapping).
Qed.

Lemma list_to_map_first (entries : list (string * string)) k v :
  (list_to_map entries : gmap string string) !! k = Some v
  <-> first_entry entries k v.
Proof.
  unfold first_entry. induction entries as [|[k' v'] entries IH]; simpl.
  - rewrite lookup_empty. split; [done|]. by intros (i & ? & _).
  - destruct (decide (k' = k)) as [->|Hne].
    + rewrite lookup_insert_eq. split.
      * intros [= ->]. exists 0%nat. split; [done|]. intros j p Hj. lia.
      * intros ([|i] & Hi & Hfirst); [by injection Hi as ->|].
        destruct (Hfirst 0%nat (k, v') ltac:(lia) eq_refl). done.
    + rewrite lookup_insert_ne by done. rewrite IH. split.
      * intros (i & Hi & Hfirst). exists (S i). split; [done|].
        intros [|j] p Hj Hp; simpl in Hp; [by injection Hp as <-|].
        apply (Hfirst j); [lia|done].
      * intros ([|i] & Hi & Hfirst); simpl in Hi; [congruence|].
        exists i. split; [done|]. intros j p Hj Hp.
        apply (Hfirst (S j)); [lia|done].
Qed.

Lemma flex_sample_not_short : ~ Exists short_flex_row (concat flex_sample).
Proof.
  intros H. apply Exists_exists in H as (row & Hrow & Hs).
  simpl in Hrow. repeat (apply elem_of_cons in Hrow as [->|Hrow];
    [destruct Hs as [Hs|Hs]; vm_compute in Hs; discriminate Hs|]).
  by apply elem_of_nil in Hrow.
Qed.

Lemma flex_sample_map :
  build_symbol_exchange_map flex_sample
  = Some {[ "AAPL" := "NASDAQ"; "SPY" := "AMEX"; "SAP" := "IBIS" ]}.
Proof. vm_compute. reflexivity. Qed.

Lemma build_symbol_exchange_map_first_wins_aux flex_files :
  ~ Exists short_flex_row (concat flex_files) ->
  exists mapping, build_symbol_exchange_map flex_files = Some mapping
    /\ forall sym v, mapping !! sym = Some v
                     <-> first_entry (flex_entries flex_files) sym v.
Proof.
  intros Hs. apply not_Exists_Forall in Hs; [|apply _].
  unfold build_symbol_exchange_map.
  rewrite (flex_loop_union ∅ flex_files) by (eapply Forall_impl; [exact Hs|done]).
  eexists. split; [done|]. intros sym v.
  rewrite map_empty_union. apply list_to_map_first.
Qed.

(** X1: when no row lacks a cell under Symbol or ListingExchange, the map
    is built, and it binds a symbol to a prefix exactly when the first
    row, in file-then-row order, that has this (stripped) symbol and a
    non-blank exchange code has that prefix: earlier rows and earlier
    files win. *)
Theorem build_symbol_exchange_map_first_wins flex_files :
  ~ Exists short_flex_row (concat flex_files) ->
  exists mapping, build_symbol_exchange_map flex_files = Some mapping
    /\ forall sym v, mapping !! sym = Some v
                     <-> first_entry (flex_entries flex_files) sym v.
Proof.
  apply build_symbol_exchange_map_first_wins_aux.
Qed.

Lemma build_symbol_exchange_map_first_wins_witness :
  exists mapping, build_symbol_exchange_map flex_sample = Some mapping
    /\ forall sym v, mapping !! sym = Some v
                     <-> first_entry (flex_entries flex_sample) sym v.
Proof.
  exact (build_symbol_exchange_map_first_wins flex_sample flex_sample_not_short).
Defined.

(** X2: building the map raises (the [AttributeError] of [None.strip()])
    exactly when some row of some file is too short to have a cell under
    Symbol or under ListingExchange. *)
Theorem build_symbol_exchange_map_raises_iff flex_files :
  build_symbol_exchange_map flex_files = None
  <-> exists row, row ∈ concat flex_files /\ short_flex_row row.
Proof.
  unfold build_symbol_exchange_map. rewrite flex_loop_None.
  apply Exists_exists.
Qed.

Lemma first_entry_elem entries k v : first_entry entries k v -> (k, v) ∈ entries.
Proof. intros (i & Hi & _). by eapply list_elem_of_lookup_2. Qed.

Lemma flex_entry_Some row sym v :
  flex_entry row = Some (sym, v) ->
  exists s e, row !! "Symbol" = Some (Some s)
    /\ row !! "ListingExchange" = Some (Some e)
    /\ sym = Py.strip s /\ sym <> ""
    /\ Py.strip e <> ""
    /\ v = default (Py.strip e) (EXCHANGE_MAP !! Py.strip e).
Proof.
  unfold flex_entry, flex_get. intros He.
  destruct (row !! "Symbol") as [[s|]|] eqn:Es; try done;
    destruct (row !! "ListingExchange") as [[e|]|] eqn:Ee; try done.
  - destruct (truthy (Py.strip s)) eqn:Ts; [|done].
    destruct (truthy (Py.strip e)) eqn:Te; [|done].
    injection He as <- <-. exists s, e. unfold truthy in *.
    apply negb_true_iff, String.eqb_neq in Ts, Te. done.
  - by destruct (truthy (Py.strip s)).
Qed.

(** X3: the map never binds the blank symbol, and every binding comes
    from a row with both cells non-blank: the key is its stripped symbol
    and the value is the [EXCHANGE_MAP] prefix of its stripped exchange
    code, or the code itself when the table does not list it. *)
Theorem build_symbol_exchange_map_bindings flex_files mapping sym v :
  build_symbol_exchange_map flex_files = Some mapping ->
  mapping !! sym = Some v ->
  sym <> ""
  /\ exists row s e, row ∈ concat flex_files
       /\ row !! "Symbol" = Some (Some s)
       /\ row !! "ListingExchange" = Some (Some e)
       /\ sym = Py.strip s /\ Py.strip e <> ""
       /\ v = default (Py.strip e) (EXCHANGE_MAP !! Py.strip e).
Proof.
  intros Hb Hv.
  assert (~ Exists short_flex_row (concat flex_files)) as Hs.
  { intros H. apply (flex_loop_None ∅) in H.
    unfold build_symbol_exchange_map in Hb. congruence. }
  apply not_Exists_Forall in Hs; [|apply _].
  unfold build_symbol_exchange_map in Hb.
  rewrite (flex_loop_union ∅ flex_files) in Hb
    by (eapply Forall_impl; [exact Hs|done]).
  injection Hb as <-. rewrite map_empty_union in Hv.
  apply list_to_map_first, first_entry_elem in Hv.
  unfold flex_entries in Hv. apply list_elem_of_omap in Hv as (row & Hrow & He).
  destruct (flex_entry_Some _ _ _ He) as (s & e & H1 & H2 & H3 & H4 & H5 & H6).
  split; [done|]. by exists row, s, e.
Qed.

Lemma build_symbol_exchange_map_bindings_witness :
  "SPY" <> ""
  /\ exists row s e, row ∈ concat flex_sample
       /\ row !! "Symbol" = Some (Some s)
       /\ row !! "ListingExchange" = Some (Some e)
       /\ "SPY" = Py.strip s /\ Py.strip e <> ""
       /\ "AMEX" = default (Py.strip e) (EXCHANGE_MAP !! Py.strip e).
Proof.
  apply (build_symbol_exchange_map_bindings flex_sample
           {[ "AAPL" := "NASDAQ"; "SPY" := "AMEX"; "SAP" := "IBIS" ]}).
  - vm_compute. reflexivity.
  - reflexivity.
Defined.

(** X4: resolving a symbol against the built map.  A symbol priced in HKD
    resolves to the HKEX prefix whatever the map holds; any other symbol
    resolves to the prefix of its first flex row, and to NASDAQ when no
    flex row with a non-blank exchange code has it. *)
Theorem get_tv_symbol_of_built_map flex_files mapping symbol currency :
  build_symbol_exchange_map flex_files = Some mapping ->
  (currency = "HKD" ->
     get_tv_symbol symbol currency mapping = "HKEX:" +:+ symbol)
  /\ (currency <> "HKD" -> forall v,
        first_entry (flex_entries flex_files) symbol v ->
        get_tv_symbol symbol currency mapping = v +:+ ":" +:+ symbol)
  /\ (currency <> "HKD" ->
        (forall p, p ∈ flex_entries flex_files -> p.1 <> symbol) ->
        get_tv_symbol symbol currency mapping = "NASDAQ:" +:+ symbol).
Proof.
  intros Hb.
  assert (~ Exists short_flex_row (concat flex_files)) as Hs.
  { intros H. apply (flex_loop_None ∅) in H.
    unfold build_symbol_exchange_map in Hb. congruence. }
  destruct (build_symbol_exchange_map_first_wins_aux flex_files Hs)
    as (mapping' & Hb' & Hfirst).
  assert (mapping' = mapping) as -> by congruence.
  unfold get_tv_symbol. split; [|split].
  - intros ->. done.
  - intros Hc v Hv. apply String.eqb_neq in Hc. rewrite Hc.
    apply Hfirst in Hv. by rewrite Hv.
  - intros Hc Hnone. apply String.eqb_neq in Hc. rewrite Hc.
    destruct (mapping !! symbol) as [v|] eqn:Hv; [|done].
    apply Hfirst, first_entry_elem in Hv. by destruct (Hnone _ Hv).
Qed.

Lemma flex_sample_first_SPY : first_entry (flex_entries flex_sample) "SPY" "AMEX".
Proof.
  exists 1%nat. split; [vm_compute; reflexivity|].
  intros [|j] p Hj Hp; [|lia]. vm_compute in Hp. by injection Hp as <-.
Qed.

Lemma get_tv_symbol_of_built_map_witness :
  let mapping : gmap string string :=
    {[ "AAPL" := "NASDAQ"; "SPY" := "AMEX"; "SAP" := "IBIS" ]} in
  get_tv_symbol "SPY" "HKD" mapping = "HKEX:SPY"
  /\ get_tv_symbol "SPY" "USD" mapping = "AMEX:SPY".
Proof.
  intros mapping.
  destruct (get_tv_symbol_of_built_map flex_sample mapping "SPY" "HKD"
              flex_sample_map) as [H1 _].
  destruct (get_tv_symbol_of_built_map flex_sample mapping "SPY" "USD"
              flex_sample_map) as (_ & H2 & _).
  split; [by apply H1|]. by apply (H2 ltac:(done) "AMEX" flex_sample_first_SPY).
Defined.

(** ** Uniqueness of the renamed header *)

Lemma has_underscore_app s1 s2 : has_underscore (s1 +:+ "_" +:+ s2) = true.
Proof. induction s1 as [|c s1 IH]; simpl; [done|]. by rewrite IH, orb_true_r. Qed.

Lemma pretty_N_go_no_underscore x s :
  has_underscore s = false -> has_underscore (pretty_N_go x s) = false.
Proof.
  revert s. induction (N.lt_wf_0 x) as [x _ IH]; intros s Hs.
  assert (x = 0 \/ 0 < x)%N as [->|Hx] by lia.
  - by rewrite pretty_N_go_0.
  - rewrite pretty_N_go_step by done. apply IH.
    { by apply N.div_lt. }
    simpl. rewrite Hs. unfold pretty_N_char. by repeat case_match.
Qed.

Lemma str_of_nat_no_underscore n : has_underscore (Py.str_of_nat n) = false.
Proof.
  unfold Py.str_of_nat, pretty, pretty_nat, pretty, pretty_N.
  case_decide; [done|]. by apply pretty_N_go_no_underscore.
Qed.

Lemma suffix_inj h1 h2 d1 d2 :
  has_underscore d1 = false -> has_underscore d2 = false ->
  h1 +:+ "_" +:+ d1 = h2 +:+ "_" +:+ d2 -> h1 = h2 /\ d1 = d2.
Proof.
  intros Hd1 Hd2. revert h2. induction h1 as [|c h1 IH]; intros [|c' h2] He;
    simpl in He.
  - by injection He.
  - injection He as _ He. change ("" +:+ d1) with d1 in He.
    rewrite He, has_underscore_app in Hd1. done.
  - injection He as _ He. change ("" +:+ d2) with d2 in He.
    rewrite <- He, has_underscore_app in Hd2. done.
  - injection He as -> He. destruct (IH _ He) as [-> ->]. done.
Qed.

Lemma renamed_inj h1 h2 c1 c2 :
  (1 <= c1)%nat -> (1 <= c2)%nat ->
  renamed h1 c1 = renamed h2 c2 -> h1 = h2 /\ c1 = c2.
Proof.
  destruct c1 as [|c1], c2 as [|c2]; try lia. intros _ _ He. simpl in He.
  apply suffix_inj in He as [-> He]; try apply str_of_nat_no_underscore.
  split; [done|]. apply (inj pretty) in He. lia.
Qed.

Lemma renamed_ne h c : (1 <= c)%nat -> renamed h c <> h.
Proof.
  destruct c as [|c]; [lia|]. intros _. simpl.
  induction h as [|a h IH]; simpl; [done|]. intros [= He]. by apply IH.
Qed.

Lemma occurrences_cons h x l :
  occurrences h (x :: l) =
  if decide (x = h) then S (occurrences h l) else occurrences h l.
Proof. unfold occurrences. rewrite filter_cons. by case_decide. Qed.

Lemma occurrences_app h l1 l2 :
  occurrences h (l1 ++ l2) = (occurrences h l1 + occurrences h l2)%nat.
Proof. unfold occurrences. by rewrite filter_app, length_app. Qed.

Lemma occurrences_take_S raw i h :
  raw !! i = Some h ->
  occurrences h (take (S i) raw) = S (occurrences h (take i raw)).
Proof.
  intros Hi. rewrite (take_S_r _ _ _ Hi), occurrences_snoc. by case_decide.
Qed.

Lemma occurrences_take_total raw i h :
  (occurrences h (take i raw) <= occurrences h raw)%nat.
Proof.
  rewrite <- (take_drop i raw) at 2. rewrite occurrences_app. lia.
Qed.

Lemma occurrences_take_le raw i j h :
  (i <= j)%nat -> (occurrences h (take i raw) <= occurrences h (take j raw))%nat.
Proof.
  intros Hij.
  replace (take i raw) with (take i (take j raw))
    by (rewrite take_take; f_equal; lia).
  apply occurrences_take_total.
Qed.

Lemma occurrences_take_lt raw i h :
  raw !! i = Some h -> (occurrences h (take i raw) < occurrences h raw)%nat.
Proof.
  intros Hi. pose proof (occurrences_take_S raw i h Hi).
  pose proof (occurrences_take_total raw (S i) h). lia.
Qed.

(** The position of the occurrence of [h] that has [c] occurrences before it. *)
Lemma occurrences_position raw h c :
  (c < occurrences h raw)%nat ->
  exists i, raw !! i = Some h /\ occurrences h (take i raw) = c.
Proof.
  revert c. induction raw as [|x raw IH]; intros c Hc.
  - unfold occurrences in Hc. simpl in Hc. lia.
  - rewrite occurrences_cons in Hc. destruct (decide (x = h)) as [->|Hne].
    + destruct c as [|c].
      * by exists 0%nat.
      * destruct (IH c) as (i & Hi & Ho); [lia|]. exists (S i).
        split; [done|]. simpl. rewrite occurrences_cons.
        rewrite decide_True by done. by rewrite Ho.
    + destruct (IH c Hc) as (i & Hi & Ho). exists (S i).
      split; [done|]. simpl. rewrite occurrences_cons.
      by rewrite decide_False.
Qed.

Lemma occurrences_same_position raw i j h :
  raw !! i = Some h -> raw !! j = Some h ->
  occurrences h (take i raw) = occurrences h (take j raw) -> i = j.
Proof.
  intros Hi Hj Ho.
  destruct (Nat.lt_trichotomy i j) as [Hlt|[->|Hgt]]; [|done|].
  - pose proof (occurrences_take_S raw i h Hi).
    pose proof (occurrences_take_le raw (S i) j h ltac:(lia)). lia.
  - pose proof (occurrences_take_S raw j h Hj).
    pose proof (occurrences_take_le raw (S j) i h ltac:(lia)). lia.
Qed.

Lemma dedupe_headers_at raw i x :
  dedupe_headers raw !! i = Some x ->
  exists h, raw !! i = Some h /\ x = renamed h (occurrences h (take i raw)).
Proof.
  rewrite dedupe_headers_lookup. destruct (raw !! i) as [h|]; [|done].
  intros [= <-]. by exists h.
Qed.

(** X5: the renaming pass keeps the length and the order of the header:
    the name at a position is the raw name there when it has not occurred
    before, and the raw name followed by [_k] when it is its [k]-th
    occurrence, [k >= 2]. *)
Theorem dedupe_headers_positions raw :
  List.length (dedupe_headers raw) = List.length raw
  /\ forall i h, raw !! i = Some h ->
       dedupe_headers raw !! i =
       Some (match occurrences h (take i raw) with
             | O => h
             | S c => h +:+ "_" +:+ Py.str_of_nat (S (S c))
             end).
Proof.
  split; [apply dedupe_headers_length|].
  intros i h Hi. rewrite dedupe_headers_lookup, Hi. simpl.
  unfold renamed. by destruct (occurrences h (take i raw)).
Qed.

Lemma NoDup_occurrences_take raw i h :
  NoDup raw -> raw !! i = Some h -> occurrences h (take i raw) = 0%nat.
Proof.
  intros Hnd Hi. pose proof (occurrences_take_lt raw i h Hi) as Hlt.
  destruct (occurrences h (take i raw)) as [|c] eqn:Ho; [done|exfalso].
  destruct (occurrences_position raw h 0) as (j & Hj & Hoj); [lia|].
  assert (j = i) as -> by (by eapply NoDup_lookup). congruence.
Qed.

(** X6: a header whose names are pairwise distinct is left as it is. *)
Theorem dedupe_headers_NoDup_id raw :
  NoDup raw -> dedupe_headers raw = raw.
Proof.
  intros Hnd. apply list_eq. intros i. rewrite dedupe_headers_lookup.
  destruct (raw !! i) as [h|] eqn:Hi; [|done]. simpl.
  by rewrite (NoDup_occurrences_take raw i h Hnd Hi).
Qed.

Lemma dedupe_headers_NoDup_id_witness :
  dedupe_headers trade_header = trade_header.
Proof.
  apply dedupe_headers_NoDup_id. unfold trade_header.
  repeat (apply NoDup_cons; split;
    [intros H; repeat (apply elem_of_cons in H as [H|H]; [discriminate H|]);
     by apply elem_of_nil in H|]).
  apply NoDup_nil_2.
Defined.

(** X7: the renamed header has pairwise distinct names exactly when no
    name the pass generates -- [h_k] for a name [h] occurring at least [k]
    times, [k >= 2] -- is itself a name of the raw header. *)
Theorem dedupe_headers_NoDup_iff raw :
  NoDup (dedupe_headers raw) <-> forall g, generated raw g -> g ∉ raw.
Proof.
  split.
  - intros Hnd g (h & c & [Hc1 Hc2] & ->) Hin.
    destruct (occurrences_position raw h c Hc2) as (i & Hi & Hoi).
    destruct (occurrences_position raw (renamed h c) 0) as (j & Hj & Hoj).
    { apply list_elem_of_lookup in Hin as [j Hj].
      pose proof (occurrences_take_lt raw j _ Hj). lia. }
    assert (dedupe_headers raw !! i = Some (renamed h c)) as Hi'
      by (rewrite dedupe_headers_lookup, Hi; simpl; by rewrite Hoi).
    assert (dedupe_headers raw !! j = Some (renamed h c)) as Hj'
      by (rewrite dedupe_headers_lookup, Hj; simpl; by rewrite Hoj).
    pose proof (NoDup_lookup _ _ _ _ Hnd Hi' Hj') as ->.
    rewrite Hi in Hj. injection Hj as Hj. symmetry in Hj.
    by apply renamed_ne in Hj.
  - intros Hgen. apply NoDup_alt. intros i j x Hi Hj.
    apply dedupe_headers_at in Hi as (hi & Hi & ->).
    apply dedupe_headers_at in Hj as (hj & Hj & Hx).
    pose proof (occurrences_take_lt raw i hi Hi) as Hli.
    pose proof (occurrences_take_lt raw j hj Hj) as Hlj.
    destruct (occurrences hi (take i raw)) as [|ci] eqn:Hci,
             (occurrences hj (take j raw)) as [|cj] eqn:Hcj.
    + simpl in Hx. subst hj. eapply occurrences_same_position; eauto. congruence.
    + exfalso. apply (Hgen hi).
      * exists hj, (S cj). split; [lia|done].
      * by eapply list_elem_of_lookup_2.
    + exfalso. apply (Hgen hj).
      * exists hi, (S ci). split; [lia|done].
      * by eapply list_elem_of_lookup_2.
    + apply renamed_inj in Hx as [-> [= ->]]; [|lia..].
      eapply occurrences_same_position; eauto. congruence.
Qed.

(** ** The sections the parser returns *)

Lemma parse_rows_app st rows1 rows2 :
  parse_rows st (rows1 ++ rows2) =
  match parse_rows st rows1 with
  | Ok st' => parse_rows st' rows2
  | Raise e => Raise e
  end.
Proof.
  revert st. induction rows1 as [|row rows1 IH]; intros st; simpl; [done|].
  destruct (parse_row st row) as [st'|e]; simpl; [apply IH|done].
Qed.

Lemma parse_rows_wf st rows :
  parser_wf st -> exists st', parse_rows st rows = Ok st' /\ parser_wf st'.
Proof.
  revert st. induction rows as [|row rest IH]; intros st Hwf; simpl; eauto.
  destruct (parse_row_wf st row Hwf) as (st' & -> & Hwf'). simpl. by apply IH.
Qed.

Lemma parser_init_wf : parser_wf parser_init.
Proof. by intros s. Qed.

(** A row of an unknown kind, or too short, leaves the state as it is. *)
Lemma parse_row_unknown st row : ~ known_kind row -> parse_row st row = Ok st.
Proof.
  destruct row as [|c0 [|c1 fields]]; simpl; try done. intros Hk.
  destruct (String.eqb_spec (Py.strip c1) "Header") as [Hh|_]; [tauto|].
  destruct (String.eqb_spec (Py.strip c1) "Data") as [Hd|_]; [tauto|]. done.
Qed.

Lemma parse_rows_filter st rows :
  parse_rows st (filter known_kind rows) = parse_rows st rows.
Proof.
  revert st. induction rows as [|row rest IH]; intros st; [done|].
  rewrite filter_cons. destruct (decide (known_kind row)) as [Hk|Hk]; simpl.
  - destruct (parse_row st row); simpl; [apply IH|done].
  - rewrite (parse_row_unknown st row Hk). simpl. apply IH.
Qed.

(** X8: lines with fewer than two fields and lines whose kind is neither
    Header nor Data are ignored: the parser returns what it returns on the
    statement without them. *)
Theorem parse_ignores_unknown_rows rows :
  parse_activity_statement (filter known_kind rows)
  = parse_activity_statement rows.
Proof.
  unfold parse_activity_statement. by rewrite parse_rows_filter.
Qed.

Lemma parse_row_sections_dom st row st' :
  parse_row st row = Ok st' ->
  dom (sections st') = dom (sections st) ∪ list_to_set (option_list (header_tag row)).
Proof.
  destruct row as [|c0 [|c1 fields]]; simpl; try (intros [= <-]; set_solver).
  destruct (String.eqb (Py.strip c1) "Header").
  - intros [= <-]. simpl. destruct (sections st !! Py.strip c0) eqn:E.
    + apply (elem_of_dom_2 (sections st)) in E. set_solver.
    + rewrite dom_insert_L. set_solver.
  - destruct (String.eqb (Py.strip c1) "Data" && bool_decide _);
      [|intros [= <-]; set_solver].
    destruct (current_headers st) as [[|h hs]|]; try (intros [= <-]; set_solver).
    destruct (sections st !! Py.strip c0) as [l|] eqn:E; [|done].
    intros [= <-]. simpl. rewrite dom_insert_L.
    apply (elem_of_dom_2 (sections st)) in E. set_solver.
Qed.

Lemma parse_rows_sections_dom st rows st' :
  parse_rows st rows = Ok st' ->
  dom (sections st') = dom (sections st) ∪ list_to_set (omap header_tag rows).
Proof.
  revert st. induction rows as [|row rest IH]; intros st; simpl.
  - intros [= <-]. set_solver.
  - destruct (parse_row st row) as [st1|e] eqn:Hrow; simpl; [|done].
    intros Hrest. rewrite (IH _ Hrest), (parse_row_sections_dom _ _ _ Hrow).
    destruct (header_tag row); simpl; set_solver.
Qed.

(** X9: the parser never raises, and the sections it returns are exactly
    the tags of the Header rows of the statement: a section whose header
    is followed by no data is there, with whatever records it has. *)
Theorem parse_sections_are_header_tags rows :
  exists sections, parse_activity_statement rows = Ok sections
    /\ dom sections = list_to_set (omap header_tag rows).
Proof.
  unfold parse_activity_statement.
  destruct (parse_rows_wf parser_init rows parser_init_wf) as (st & Hst & _).
  rewrite Hst. simpl. eexists. split; [done|].
  rewrite (parse_rows_sections_dom _ _ _ Hst). simpl. set_solver.
Qed.

Lemma parse_row_grows st row st' s l :
  parse_row st row = Ok st' -> sections st !! s = Some l ->
  exists l', sections st' !! s = Some (l ++ l')%list.
Proof.
  intros Hrow Hl.
  assert (sections st !! s = Some (l ++ [])%list) as Hl0 by (by rewrite app_nil_r).
  destruct row as [|c0 [|c1 fields]]; simpl in Hrow;
    try (injection Hrow as <-; by exists []).
  destruct (String.eqb (Py.strip c1) "Header").
  - injection Hrow as <-. simpl. exists [].
    destruct (sections st !! Py.strip c0) eqn:E; [done|].
    rewrite lookup_insert_ne; [done|]. intros Heq. rewrite Heq in E. congruence.
  - destruct (String.eqb (Py.strip c1) "Data" && bool_decide _);
      [|injection Hrow as <-; by exists []].
    destruct (current_headers st) as [[|h hs]|];
      try (injection Hrow as <-; by exists []).
    destruct (sections st !! Py.strip c0) as [l0|] eqn:E; [|done].
    injection Hrow as <-. simpl.
    destruct (decide (Py.strip c0 = s)) as [Heq|Hne].
    + rewrite Heq in *. rewrite lookup_insert_eq. eexists.
      assert (l0 = l) as -> by congruence. done.
    + rewrite lookup_insert_ne by done. by exists [].
Qed.

Lemma parse_rows_grows st rows st' s l :
  parse_rows st rows = Ok st' -> sections st !! s = Some l ->
  exists l', sections st' !! s = Some (l ++ l')%list.
Proof.
  revert st l. induction rows as [|row rest IH]; intros st l; simpl.
  - intros [= <-] Hl. exists []. by rewrite app_nil_r.
  - destruct (parse_row st row) as [st1|e] eqn:Hrow; simpl; [|done].
    intros Hrest Hl. destruct (parse_row_grows _ _ _ _ _ Hrow Hl) as [l1 Hl1].
    destruct (IH _ _ Hrest Hl1) as [l2 Hl2]. exists (l1 ++ l2)%list.
    by rewrite app_assoc.
Qed.

(** X10: lines appended to a statement leave the records parsed from the
    lines before them as they are: each section of the shorter statement
    is a section of the longer one, and its record list is a prefix of the
    longer one's. *)
Theorem parse_append_only rows1 rows2 sections1 s l :
  parse_activity_statement rows1 = Ok sections1 ->
  sections1 !! s = Some l ->
  exists sections2 l',
    parse_activity_statement (rows1 ++ rows2) = Ok sections2
    /\ sections2 !! s = Some (l ++ l')%list.
Proof.
  unfold parse_activity_statement. rewrite parse_rows_app.
  destruct (parse_rows_wf parser_init rows1 parser_init_wf) as (st1 & Hst1 & Hwf1).
  rewrite Hst1. simpl. intros [= <-] Hl.
  destruct (parse_rows_wf st1 rows2 Hwf1) as (st2 & Hst2 & _).
  rewrite Hst2. simpl.
  destruct (parse_rows_grows _ _ _ _ _ Hst2 Hl) as [l' Hl'].
  by exists (sections st2), l'.
Qed.

Lemma parse_row_no_header st row :
  current_headers st = None -> header_tag row = None -> parse_row st row = Ok st.
Proof.
  destruct row as [|c0 [|c1 fields]]; simpl; try done. intros Hh.
  destruct (String.eqb (Py.strip c1) "Header"); [done|]. intros _.
  rewrite Hh. by destruct (_ && _).
Qed.

Lemma parse_rows_no_header st rows :
  current_headers st = None -> Forall (fun row => header_tag row = None) rows ->
  parse_rows st rows = Ok st.
Proof.
  intros Hh Hrows. induction Hrows as [|row rest Hrow _ IH]; simpl; [done|].
  by rewrite (parse_row_no_header st row Hh Hrow).
Qed.

(** X11: everything before the first Header row of a statement is
    ignored, Data rows included. *)
Theorem parse_ignores_rows_before_first_header pre rows :
  Forall (fun row => header_tag row = None) pre ->
  parse_activity_statement (pre ++ rows) = parse_activity_statement rows.
Proof.
  intros Hpre. unfold parse_activity_statement.
  by rewrite parse_rows_app, (parse_rows_no_header parser_init pre eq_refl Hpre).
Qed.

Lemma parse_ignores_rows_before_first_header_witness :
  parse_activity_statement
    ([["存款和取款"; "Data"; "USD"; "2025-01-02"; "Deposit"; "1000.00"]; ["x"]]
     ++ bad_amount_file)
  = parse_activity_statement bad_amount_file.
Proof.
  apply parse_ignores_rows_before_first_header.
  apply Forall_cons; split; [reflexivity|].
  apply Forall_cons; split; [reflexivity|]. apply Forall_nil_2.
Defined.

Lemma parse_row_other_section st c0 c1 fields :
  Py.strip c1 = "Data" -> current_section st <> Some (Py.strip c0) ->
  parse_row st (c0 :: c1 :: fields) = Ok st.
Proof.
  intros Hd Hs. simpl. rewrite Hd. simpl.
  by rewrite bool_decide_eq_false_2.
Qed.

(** X12: the parser keeps one cursor, not one header per section: a Data
    row that follows the Header row of another section is discarded, even
    when its own section had a header earlier in the statement. *)
Theorem parse_drops_data_of_other_section pre hdr c0 c1 fields rest tag :
  header_tag hdr = Some tag -> Py.strip c1 = "Data" -> Py.strip c0 <> tag ->
  parse_activity_statement (pre ++ hdr :: (c0 :: c1 :: fields) :: rest)
  = parse_activity_statement (pre ++ hdr :: rest).
Proof.
  intros Hh Hd Hne. unfold parse_activity_statement. rewrite !parse_rows_app.
  destruct (parse_rows parser_init pre) as [st|e]; [|done].
  destruct hdr as [|h0 [|h1 hfields]]; try done. simpl in Hh.
  destruct (String.eqb_spec (Py.strip h1) "Header") as [Hh1|]; [|done].
  injection Hh as <-.
  destruct (parse_row_header st h0 h1 hfields Hh1) as (st' & Hst' & Hcs & _).
  cbn [parse_rows]. rewrite Hst'. cbn [mbind result_bind].
  rewrite (parse_row_other_section st' c0 c1 fields Hd); [done|].
  rewrite Hcs. congruence.
Qed.

Lemma parse_drops_data_of_other_section_witness :
  parse_activity_statement interleaved_file
  = parse_activity_statement
      (take 6 interleaved_file ++ drop 7 interleaved_file).
Proof.
  exact (parse_drops_data_of_other_section (take 5 interleaved_file)
           ["股息"; "Header"; "货币"; "日期"; "描述"; "金额"]
           "存款和取款" "Data" ["USD"; "2025-01-03"; "Deposit"; "5.00"]
           (drop 7 interleaved_file) "股息" eq_refl eq_refl ltac:(done)).
Defined.

Lemma header_of_mono seen row s hs :
  header_of seen s hs -> header_of (seen ++ [row]) s hs.
Proof.
  intros (c0 & c1 & fields & Hin & H). exists c0, c1, fields.
  split; [|done]. apply elem_of_app. by left.
Qed.

Lemma parser_inv_step seen st row st' :
  parser_inv seen st -> parse_row st row = Ok st' ->
  parser_inv (seen ++ [row]) st'.
Proof.
  intros [Hcur Hrec] Hrow.
  assert (parser_inv (seen ++ [row]) st) as Hsame.
  { split.
    - intros s hs H1 H2. apply header_of_mono. by apply Hcur.
    - intros s l rec H1 H2. destruct (Hrec s l rec H1 H2) as (hs & ? & ? & ?).
      exists hs. repeat split; try done. by apply header_of_mono. }
  destruct row as [|c0 [|c1 fields]]; simpl in Hrow;
    try (by injection Hrow as <-).
  destruct (String.eqb_spec (Py.strip c1) "Header") as [Hh|_].
  - injection Hrow as <-. split; simpl.
    + intros s hs [= <-] [= <-]. exists c0, c1, fields.
      split; [|done]. apply elem_of_app. right. by left.
    + intros s l rec Hl Hin. destruct Hsame as [_ Hrec'].
      destruct (sections st !! Py.strip c0) eqn:E; [by eapply Hrec'|].
      destruct (decide (Py.strip c0 = s)) as [Heq|Hne].
      * rewrite Heq, lookup_insert_eq in Hl. injection Hl as <-.
        by apply elem_of_nil in Hin.
      * rewrite lookup_insert_ne in Hl by done. by eapply Hrec'.
  - destruct (String.eqb (Py.strip c1) "Data"); simpl in Hrow;
      [|by injection Hrow as <-].
    case_bool_decide as Hs; simpl in Hrow; [|by injection Hrow as <-].
    destruct (current_headers st) as [[|h hs]|] eqn:Ehd;
      try (by injection Hrow as <-).
    destruct (sections st !! Py.strip c0) as [l0|] eqn:E; [|done].
    injection Hrow as <-. destruct Hsame as [Hcur' Hrec']. split; simpl.
    + intros s' hs' H1 H2. apply Hcur'; congruence.
    + intros s l rec Hl Hin.
      destruct (decide (Py.strip c0 = s)) as [Heq|Hne].
      * rewrite Heq, lookup_insert_eq in Hl. injection Hl as <-.
        apply elem_of_app in Hin as [Hin|Hin].
        -- rewrite Heq in E. by eapply Hrec'.
        -- apply list_elem_of_singleton in Hin as ->. exists (h :: hs).
           split; [done|]. split; [|apply make_record_dom].
           rewrite <- Heq. by apply Hcur'.
      * rewrite lookup_insert_ne in Hl by done. by eapply Hrec'.
Qed.

Lemma parser_inv_rows seen st rows st' :
  parser_inv seen st -> parse_rows st rows = Ok st' ->
  parser_inv (seen ++ rows) st'.
Proof.
  revert seen st. induction rows as [|row rest IH]; intros seen st Hinv; simpl.
  - intros [= <-]. by rewrite app_nil_r.
  - destruct (parse_row st row) as [st1|e] eqn:Hrow; simpl; [|done].
    intros Hrest. rewrite (cons_middle row seen rest), app_assoc.
    eapply IH; [|exact Hrest]. by eapply parser_inv_step.
Qed.

(** X13: every record the parser returns binds exactly the names of the
    renamed header of a Header row of its own section, and that header is
    not empty: a Header row without field names gives its section no
    records. *)
Theorem parse_records_bind_header_names rows sections s l rec :
  parse_activity_statement rows = Ok sections ->
  sections !! s = Some l -> rec ∈ l ->
  exists c0 c1 fields, (c0 :: c1 :: fields) ∈ rows
    /\ Py.strip c0 = s /\ Py.strip c1 = "Header" /\ fields <> []
    /\ dom rec = list_to_set (dedupe_headers fields).
Proof.
  unfold parse_activity_statement.
  destruct (parse_rows parser_init rows) as [st|e] eqn:Hst; [|done].
  simpl. intros [= <-] Hl Hin.
  assert (parser_inv [] parser_init) as Hinit.
  { split; [done|]. intros s' l' rec' Hl'. simpl in Hl'.
    by rewrite lookup_empty in Hl'. }
  destruct (parser_inv_rows _ _ _ _ Hinit Hst) as [_ Hrec].
  destruct (Hrec s l rec Hl Hin) as (hs & Hne & (c0 & c1 & fields & H1 & H2 & H3 & ->) & Hdom).
  exists c0, c1, fields. repeat split; try done.
  intros ->. by apply Hne.
Qed.

(** ** The cash converters, record by record *)

Lemma truthy_false s : truthy s = false <-> s = "".
Proof.
  unfold truthy. rewrite negb_false_iff. apply String.eqb_eq.
Qed.

Lemma truthy_true s : truthy s = true <-> s <> "".
Proof.
  unfold truthy. rewrite negb_true_iff. apply String.eqb_neq.
Qed.

Lemma cash_body_skip float r : ~ cash_eligible r -> cash_body float r = Ok None.
Proof.
  unfold cash_eligible, cash_body, desc_of, amount_str_of. intros Hn.
  destruct (truthy (Py.strip (default "" (r !! "描述")))); [|done].
  destruct (truthy (Py.strip (default "" (r !! "金额")))); [|done].
  by destruct Hn.
Qed.

Lemma cash_body_eligible float r :
  cash_eligible r ->
  cash_body float r =
  match float (amount_str_of r) with
  | Some x => Ok (Some (cash_row (if Py.gt0 x then "Deposit" else "Withdrawal")
                                 (if Py.gt0 x then x else Py.abs x)
                                 (midnight r "结算日期")))
  | None => Raise (ValueError (amount_str_of r))
  end.
Proof.
  unfold cash_eligible, cash_body, desc_of, amount_str_of, to_float.
  intros [-> ->]. simpl. destruct (float _) as [x|]; [|done]. simpl.
  by destruct (Py.gt0 x).
Qed.

Lemma dividends_body_skip float r :
  ~ cash_eligible r -> dividends_body float r = Ok None.
Proof.
  unfold cash_eligible, dividends_body, desc_of, amount_str_of. intros Hn.
  destruct (truthy (Py.strip (default "" (r !! "描述")))); [|done].
  destruct (truthy (Py.strip (default "" (r !! "金额")))); [|done].
  by destruct Hn.
Qed.

Lemma dividends_body_eligible float r :
  cash_eligible r ->
  dividends_body float r =
  match float (amount_str_of r) with
  | Some x => Ok (if Py.le0 x then None
                  else Some (cash_row "Dividend" x (midnight r "日期")))
  | None => Raise (ValueError (amount_str_of r))
  end.
Proof.
  unfold cash_eligible, dividends_body, desc_of, amount_str_of, to_float.
  intros [-> ->]. simpl. destruct (float _) as [x|]; [|done]. simpl.
  by destruct (Py.le0 x).
Qed.

Lemma taxes_body_skip float r :
  ~ cash_eligible r -> taxes_body float r = Ok None.
Proof.
  unfold cash_eligible, taxes_body, desc_of, amount_str_of. intros Hn.
  destruct (truthy (Py.strip (default "" (r !! "描述")))); [|done].
  destruct (truthy (Py.strip (default "" (r !! "金额")))); [|done].
  by destruct Hn.
Qed.

Lemma taxes_body_eligible float r :
  cash_eligible r ->
  taxes_body float r =
  match float (amount_str_of r) with
  | Some x => Ok (if Py.ge0 x then None
                  else Some (cash_row "Taxes and fees" (Py.abs x) (midnight r "日期")))
  | None => Raise (ValueError (amount_str_of r))
  end.
Proof.
  unfold cash_eligible, taxes_body, desc_of, amount_str_of, to_float.
  intros [-> ->]. simpl. destruct (float _) as [x|]; [|done]. simpl.
  by destruct (Py.ge0 x).
Qed.

(** The three loops return exactly when the amounts of the eligible
    records parse. *)
Lemma cash_loops_return float (body : gmap string string -> result (option tv_row))
    records :
  (forall r, ~ cash_eligible r -> body r = Ok None) ->
  (forall r, cash_eligible r ->
     match float (amount_str_of r) with
     | Some x => exists o, body r = Ok o
     | None => exists e, body r = Raise e
     end) ->
  amounts_parse float records <-> exists rows, for_each body records [] = Ok rows.
Proof.
  intros Hskip Helig. unfold amounts_parse. split.
  - intros HF. apply for_each_total. eapply Forall_impl; [exact HF|].
    intros r Hr. simpl in Hr. destruct (decide (cash_eligible r)) as [He|Hn].
    + specialize (Helig r He). destruct (Hr He) as [x Hx]. by rewrite Hx in Helig.
    + rewrite Hskip by done. eauto.
  - intros [rows Hrows]. apply Forall_forall. intros r Hr He.
    destruct (for_each_Ok_each _ _ _ _ Hrows Hr) as [o Ho].
    specialize (Helig r He). destruct (float (amount_str_of r)); [done|].
    destruct Helig as [e Hraise]. congruence.
Qed.

(** X14: [convert_cash_transactions] emits one row per record with a
    non-blank description and a non-blank amount, in order, and nothing
    for the others (the total lines): a Deposit of the amount when it is
    positive, a Withdrawal of its absolute value otherwise (zero
    included), on [$CASH], with empty Fill Price and Commission and the
    settlement date at midnight.  It returns exactly when the amounts of
    those records parse; its second argument is not used. *)
Theorem convert_cash_transactions_emits float records side_label :
  (forall rows, convert_cash_transactions float records side_label = Ok rows ->
     Forall2 (cash_rule float) (filter cash_eligible records) rows)
  /\ (amounts_parse float records <->
      exists rows, convert_cash_transactions float records side_label = Ok rows).
Proof.
  unfold convert_cash_transactions. split.
  - intros rows. apply for_each_filter.
    + intros r row Hb. destruct (decide (cash_eligible r)) as [He|Hn].
      * split; [done|]. rewrite cash_body_eligible in Hb by done.
        destruct (float (amount_str_of r)) as [x|] eqn:Hx; [|done].
        injection Hb as <-. by exists x.
      * by rewrite cash_body_skip in Hb.
    + intros r Hb He. rewrite cash_body_eligible in Hb by done.
      by destruct (float (amount_str_of r)).
  - apply cash_loops_return.
    + apply cash_body_skip.
    + intros r He. rewrite cash_body_eligible by done.
      destruct (float (amount_str_of r)); eauto.
Qed.

(** X15: [convert_dividends] emits one Dividend row per eligible record
    whose amount is not [<= 0], in order, with the amount as Qty and the
    date at midnight; reversals and zero amounts are dropped.  It returns
    exactly when the amounts of the eligible records parse. *)
Theorem convert_dividends_emits float records :
  (forall rows, convert_dividends float records = Ok rows ->
     Forall2 (dividend_rule float) (filter (dividend_paid float) records) rows)
  /\ (amounts_parse float records <->
      exists rows, convert_dividends float records = Ok rows).
Proof.
  unfold convert_dividends. split.
  - intros rows. apply for_each_filter.
    + intros r row Hb. destruct (decide (cash_eligible r)) as [He|Hn].
      * rewrite dividends_body_eligible in Hb by done. unfold dividend_paid.
        destruct (float (amount_str_of r)) as [x|] eqn:Hx; [|done].
        destruct (Py.le0 x) eqn:Hle; [done|]. injection Hb as <-.
        split; [by split|]. exists x. by rewrite Hx.
      * by rewrite dividends_body_skip in Hb.
    + intros r Hb [He Hp]. rewrite dividends_body_eligible in Hb by done.
      destruct (float (amount_str_of r)) as [x|]; [|done].
      by rewrite Hp in Hb.
  - apply cash_loops_return.
    + apply dividends_body_skip.
    + intros r He. rewrite dividends_body_eligible by done.
      destruct (float (amount_str_of r)); eauto.
Qed.

(** X16: [convert_taxes] emits one "Taxes and fees" row per eligible
    record whose amount is not [>= 0], in order, with the absolute value
    of the amount as Qty and the date at midnight; refunds and zero
    amounts are dropped.  It returns exactly when the amounts of the
    eligible records parse. *)
Theorem convert_taxes_emits float records :
  (forall rows, convert_taxes float records = Ok rows ->
     Forall2 (tax_rule float) (filter (tax_withheld float) records) rows)
  /\ (amounts_parse float records <->
      exists rows, convert_taxes float records = Ok rows).
Proof.
  unfold convert_taxes. split.
  - intros rows. apply for_each_filter.
    + intros r row Hb. destruct (decide (cash_eligible r)) as [He|Hn].
      * rewrite taxes_body_eligible in Hb by done. unfold tax_withheld.
        destruct (float (amount_str_of r)) as [x|] eqn:Hx; [|done].
        destruct (Py.ge0 x) eqn:Hge; [done|]. injection Hb as <-.
        split; [by split|]. exists x. by rewrite Hx.
      * by rewrite taxes_body_skip in Hb.
    + intros r Hb [He Hp]. rewrite taxes_body_eligible in Hb by done.
      destruct (float (amount_str_of r)) as [x|]; [|done].
      by rewrite Hp in Hb.
  - apply cash_loops_return.
    + apply taxes_body_skip.
    + intros r He. rewrite taxes_body_eligible by done.
      destruct (float (amount_str_of r)); eauto.
Qed.

(** ** The other fields of a trade row *)

Lemma trades_body_fields float m r row :
  trades_body float m r = Ok (Some row) -> trade_fields_rule float m r row.
Proof.
  intros Hb. destruct (trades_body_Some _ _ _ _ Hb) as [[H1 H2] _].
  unfold trades_body in Hb. rewrite !bool_decide_eq_true_2 in Hb by done.
  run_body; subst; eexists _, _, _, _, _; repeat split; try done; simpl;
    match goal with
    | H : truthy _ = true |- _ => apply truthy_true in H
    | H : truthy _ = false |- _ => apply truthy_false in H
    end; try done; eauto.
Qed.

(** X17: in every row [convert_trades] emits, Symbol is the resolution of
    the stripped code and currency cells, Fill Price is the stripped price
    cell as text, Closing Time is the stripped timestamp with each ", "
    replaced by a space, and Commission is empty when the commission cell
    is blank and the absolute value of its number otherwise. *)
Theorem convert_trades_fields float records m rows :
  convert_trades float records m = Ok rows ->
  Forall2 (trade_fields_rule float m) (filter stock_order records) rows.
Proof.
  unfold convert_trades. apply for_each_filter.
  - intros r row Hb. split.
    + by destruct (trades_body_Some _ _ _ _ Hb).
    + by apply trades_body_fields.
  - apply trades_body_None.
Qed.

Lemma convert_trades_fields_witness :
  Forall2 (trade_fields_rule py_float ∅) (filter stock_order sample_trades)
    [sell_50_row; buy_50_row].
Proof.
  apply (convert_trades_fields py_float sample_trades ∅).
  vm_compute. reflexivity.
Defined.

(** ** The report and the loop of [main] *)

Lemma count_partition rows :
  (count_trades rows + count_cash rows)%nat = List.length rows.
Proof.
  unfold count_trades, count_cash. induction rows as [|r rows IH]; simpl; [done|].
  destruct (in_buy_sell r); simpl; lia.
Qed.

Lemma count_all_trades rows :
  Forall (fun r => in_buy_sell r = true) rows ->
  count_trades rows = List.length rows /\ count_cash rows = 0%nat.
Proof.
  unfold count_trades, count_cash. induction 1 as [|r rows Hr _ [IH1 IH2]]; simpl;
    [done|]. rewrite Hr. simpl. by rewrite IH1, IH2.
Qed.

Lemma count_no_trades rows :
  Forall (fun r => in_buy_sell r = false) rows ->
  count_trades rows = 0%nat /\ count_cash rows = List.length rows.
Proof.
  unfold count_trades, count_cash. induction 1 as [|r rows Hr _ [IH1 IH2]]; simpl;
    [done|]. rewrite Hr. simpl. by rewrite IH1, IH2.
Qed.

Lemma count_app rows1 rows2 :
  count_trades (rows1 ++ rows2) = (count_trades rows1 + count_trades rows2)%nat
  /\ count_cash (rows1 ++ rows2) = (count_cash rows1 + count_cash rows2)%nat.
Proof.
  unfold count_trades, count_cash. by rewrite !List.filter_app, !length_app.
Qed.

Lemma trades_rows_buy_sell float records m rows :
  convert_trades float records m = Ok rows ->
  Forall (fun r => in_buy_sell r = true) rows.
Proof.
  unfold convert_trades. apply for_each_Forall. intros r row Hb.
  destruct (trades_body_Some _ _ _ _ Hb) as [[H1 H2] _].
  unfold trades_body in Hb. rewrite !bool_decide_eq_true_2 in Hb by done.
  run_body; subst; unfold in_buy_sell; simpl;
    match goal with |- context [if ?b then _ else _] => by destruct b end.
Qed.

Lemma cash_rows_not_buy_sell float k m records rows :
  k <> Trades -> convert float k m records = Ok rows ->
  Forall (fun r => in_buy_sell r = false) rows.
Proof.
  intros Hk. destruct k; [done|..]; simpl; unfold convert_cash_transactions,
    convert_dividends, convert_taxes; apply for_each_Forall; intros r row Hb;
    destruct (decide (cash_eligible r)) as [He|Hn].
  - rewrite cash_body_eligible in Hb by done.
    destruct (float (amount_str_of r)) as [x|]; [|done]. injection Hb as <-.
    by destruct (Py.gt0 x).
  - by rewrite cash_body_skip in Hb.
  - rewrite dividends_body_eligible in Hb by done.
    destruct (float (amount_str_of r)) as [x|]; [|done].
    destruct (Py.le0 x); [done|]. by injection Hb as <-.
  - by rewrite dividends_body_skip in Hb.
  - rewrite taxes_body_eligible in Hb by done.
    destruct (float (amount_str_of r)) as [x|]; [|done].
    destruct (Py.ge0 x); [done|]. by injection Hb as <-.
  - by rewrite taxes_body_skip in Hb.
Qed.

(** X19: the two counts [main] reports for a file add up to its number of
    rows; the number of trades is the number of rows [convert_trades]
    emitted for the file, and the number of cash records is the number of
    rows of the three cash converters. *)
Theorem report_counts float file m sections rows :
  parse_activity_statement file = Ok sections ->
  process_activity_statement float file m = Ok rows ->
  exists r1, convert_trades float (default [] (sections !! "交易")) m = Ok r1
    /\ count_trades rows = List.length r1
    /\ count_cash rows = (List.length rows - List.length r1)%nat
    /\ (count_trades rows + count_cash rows)%nat = List.length rows.
Proof.
  intros Hp. unfold process_activity_statement. rewrite Hp. simpl.
  unfold mbind, result_bind.
  destruct (convert_trades _ _ _) as [r1|] eqn:E1; [|done].
  destruct (convert_cash_transactions _ _ _) as [r2|] eqn:E2; [|done].
  destruct (convert_dividends _ _) as [r3|] eqn:E3; [|done].
  destruct (convert_taxes _ _) as [r4|] eqn:E4; [|done].
  intros [= <-]. exists r1. split; [done|]. simpl. rewrite <- !app_assoc.
  destruct (count_all_trades r1 (trades_rows_buy_sell _ _ _ _ E1)) as [T1 C1].
  destruct (count_no_trades r2
    (cash_rows_not_buy_sell float Cash m _ _ ltac:(done) E2)) as [T2 C2].
  destruct (count_no_trades r3
    (cash_rows_not_buy_sell float Dividends m _ _ ltac:(done) E3)) as [T3 C3].
  destruct (count_no_trades r4
    (cash_rows_not_buy_sell float Taxes m _ _ ltac:(done) E4)) as [T4 C4].
  assert (count_trades (r1 ++ r2 ++ r3 ++ r4) = List.length r1) as HT.
  { rewrite !(proj1 (count_app _ _)). lia. }
  rewrite HT. pose proof (count_partition (r1 ++ r2 ++ r3 ++ r4)). lia.
Qed.

Lemma collect_rows_Ok float inputs m all_rows out :
  collect_rows float inputs m all_rows = Ok out <->
  exists rowss,
    Forall2 (fun file rows => process_activity_statement float file m = Ok rows)
      inputs rowss
    /\ out = (all_rows ++ concat rowss)%list.
Proof.
  revert all_rows. induction inputs as [|file rest IH]; intros all_rows; simpl.
  - split.
    + intros [= <-]. exists []. split; [constructor|]. by rewrite app_nil_r.
    + intros (rowss & HF & ->). apply Forall2_nil_inv_l in HF as ->.
      by rewrite app_nil_r.
  - unfold mbind, result_bind.
    destruct (process_activity_statement float file m) as [rows|e] eqn:Hp.
    + rewrite IH. split.
      * intros (rowss & HF & ->). exists (rows :: rowss).
        split; [by constructor|]. simpl. by rewrite app_assoc.
      * intros (rowss & HF & ->).
        apply Forall2_cons_inv_l in HF as (rows' & rowss' & Hp' & HF & ->).
        assert (rows' = rows) as -> by congruence.
        exists rowss'. split; [done|]. simpl. by rewrite app_assoc.
    + split; [done|]. intros (rowss & HF & _).
      apply Forall2_cons_inv_l in HF as (rows' & rowss' & Hp' & _). congruence.
Qed.

(** X20: [main] returns exactly when every input file is processed
    without an exception, and then writes the merge of the rows of all
    files, concatenated in the order of the files. *)
Theorem main_merges_all_files float inputs m out :
  main float inputs m = Ok out <->
  exists rowss,
    Forall2 (fun file rows => process_activity_statement float file m = Ok rows)
      inputs rowss
    /\ out = merge (concat rowss).
Proof.
  unfold main, mbind, result_bind. split.
  - destruct (collect_rows float inputs m []) as [all_rows|] eqn:Hc; [|done].
    intros [= <-]. apply collect_rows_Ok in Hc as (rowss & HF & ->).
    by exists rowss.
  - intros (rowss & HF & ->).
    assert (collect_rows float inputs m [] = Ok (concat rowss)) as ->; [|done].
    apply collect_rows_Ok. by exists rowss.
Qed.

Lemma collect_rows_first_error float pre bad post m e all_rows :
  Forall (fun file => exists rows, process_activity_statement float file m = Ok rows) pre ->
  process_activity_statement float bad m = Raise e ->
  collect_rows float (pre ++ bad :: post) m all_rows = Raise e.
Proof.
  intros Hpre Hbad. revert all_rows.
  induction Hpre as [|file pre [rows Hrows] _ IH]; intros all_rows; simpl.
  - by rewrite Hbad.
  - rewrite Hrows. simpl. apply IH.
Qed.

(** X21: the run stops at the first file that cannot be processed: when
    the files before it are processed without an exception, [main] raises
    the exception of that file, whatever the files after it hold. *)
Theorem main_first_error float pre bad post m e :
  Forall (fun file => exists rows, process_activity_statement float file m = Ok rows) pre ->
  process_activity_statement float bad m = Raise e ->
  main float (pre ++ bad :: post) m = Raise e.
Proof.
  intros Hpre Hbad. unfold main.
  by rewrite (collect_rows_first_error float pre bad post m e [] Hpre Hbad).
Qed.

Lemma main_first_error_witness :
  main py_float ([deposits_file] ++ bad_amount_file :: [nan_trade_file]) ∅
  = Raise (ValueError "1,000.00").
Proof.
  apply main_first_error.
  - apply Forall_cons; split; [|apply Forall_nil_2].
    exists [deposit_row; withdrawal_row]. vm_compute. reflexivity.
  - vm_compute. reflexivity.
Defined.

(** ** What deduplication keeps *)

Lemma fresh_chain_among earlier out x :
  fresh_chain earlier out -> x ∈ out -> key_among (row_key x) earlier = false.
Proof.
  revert earlier. induction out as [|r out IH]; intros earlier Hf Hx.
  - by apply elem_of_nil in Hx.
  - destruct Hf as [Hr Hf]. apply elem_of_cons in Hx as [->|Hx]; [done|].
    pose proof (IH _ Hf Hx) as H. rewrite key_among_app in H.
    by apply orb_false_iff in H as [H _].
Qed.

Lemma fresh_chain_lookup earlier out i j a b :
  fresh_chain earlier out -> (i < j)%nat ->
  out !! i = Some a -> out !! j = Some b ->
  key_eq (row_key a) (row_key b) = false.
Proof.
  revert earlier i j. induction out as [|r out IH]; intros earlier i j Hf Hij Hi Hj;
    [done|]. destruct Hf as [Hr Hf]. destruct j as [|j]; [lia|]. simpl in Hj.
  destruct i as [|i]; simpl in Hi.
  - injection Hi as ->. apply list_elem_of_lookup_2 in Hj.
    pose proof (fresh_chain_among _ _ _ Hf Hj) as H.
    rewrite key_among_app in H. apply orb_false_iff in H as [_ H].
    change (key_among (row_key b) [a]) with (key_eq (row_key a) (row_key b) || false) in H.
    by rewrite orb_false_r in H.
  - apply (IH (earlier ++ [r])%list i j); [done|lia|done..].
Qed.

Lemma key_eq_false_sym k1 k2 : key_eq k1 k2 = false -> key_eq k2 k1 = false.
Proof.
  intros H. destruct (key_eq k2 k1) eqn:E; [|done].
  apply key_eq_sym in E. congruence.
Qed.

(** X22: no two rows of the deduplicated list have equal keys. *)
Theorem dedup_keys_distinct all_rows i j a b :
  i <> j -> dedup all_rows !! i = Some a -> dedup all_rows !! j = Some b ->
  key_eq (row_key a) (row_key b) = false.
Proof.
  rewrite dedup_first_occurrences. intros Hij Hi Hj.
  pose proof (first_occurrences_fresh [] all_rows) as Hf.
  destruct (Nat.lt_trichotomy i j) as [Hlt|[->|Hgt]]; [|done|].
  - by eapply fresh_chain_lookup.
  - apply key_eq_false_sym. by eapply fresh_chain_lookup.
Qed.

Lemma dedup_keys_distinct_witness :
  key_eq (row_key deposit_row) (row_key withdrawal_row) = false.
Proof.
  apply (dedup_keys_distinct
           [deposit_row; deposit_row; withdrawal_row; deposit_row] 0 1).
  - lia.
  - vm_compute. reflexivity.
  - vm_compute. reflexivity.
Defined.

Lemma first_occurrences_sublist earlier l :
  first_occurrences earlier l `sublist_of` l.
Proof.
  revert earlier. induction l as [|r l IH]; intros earlier; [done|].
  cbn [first_occurrences]. destruct (existsb _ earlier).
  - by apply sublist_cons.
  - by apply sublist_skip.
Qed.

Lemma key_among_snoc k l r :
  key_among k (l ++ [r]) = key_among k l || key_eq (row_key r) k.
Proof.
  rewrite key_among_app. f_equal.
  change (key_among k [r]) with (key_eq (row_key r) k || false). apply orb_false_r.
Qed.

(** Every key met among the rows gone through is met among the rows kept. *)
Lemma first_occurrences_covers all reps l k :
  (forall k', key_among k' all = true -> key_among k' reps = true) ->
  key_among k (all ++ l) = true ->
  key_among k (reps ++ first_occurrences all l) = true.
Proof.
  revert all reps. induction l as [|r l IH]; intros all reps Hrep Hk.
  - simpl. rewrite app_nil_r in *. by apply Hrep.
  - cbn [first_occurrences].
    change (existsb _ all) with (key_among (row_key r) all).
    rewrite (cons_middle r all l), app_assoc in Hk.
    destruct (key_among (row_key r) all) eqn:Hr.
    + apply IH; [|done]. intros k'. rewrite key_among_snoc.
      intros [H|H]%orb_true_iff; [by apply Hrep|]. apply Hrep.
      apply key_among_true in Hr as (a & Ha & Heq). apply key_among_true.
      exists a. split; [done|]. by eapply key_eq_trans.
    + rewrite (cons_middle r reps), app_assoc. apply IH; [|done].
      intros k'. rewrite !key_among_snoc.
      intros [H|H]%orb_true_iff; apply orb_true_iff; [left; by apply Hrep|by right].
Qed.

(** X23: deduplication only removes rows -- what is left stands in the
    order of the input -- and it loses no key: every input row whose Qty
    is not NaN has a row with an equal key in the output. *)
Theorem dedup_sublist_covering all_rows :
  dedup all_rows `sublist_of` all_rows
  /\ forall r, r ∈ all_rows -> Qty r <> S754_nan ->
       exists r', r' ∈ dedup all_rows /\ key_eq (row_key r') (row_key r) = true.
Proof.
  rewrite dedup_first_occurrences. split; [apply first_occurrences_sublist|].
  intros r Hr Hn. apply key_among_true.
  apply (first_occurrences_covers [] [] all_rows); [done|].
  apply key_among_true. exists r. split; [done|]. by apply key_eq_refl.
Qed.

(** ** Merging the output again *)

Lemma keys_apart_perm l1 l2 : l1 ≡ₚ l2 -> keys_apart l1 -> keys_apart l2.
Proof.
  induction 1 as [|x l1 l2 Hp IH|x y l|l1 l2 l3 _ IH1 _ IH2]; simpl.
  - done.
  - intros [Hx Hl]. split; [by rewrite <- Hp|by apply IH].
  - intros [Hy [Hx Hl]]. apply Forall_cons in Hy as [[Hyx Hxy] Hy].
    repeat split; try done. apply Forall_cons. by split.
  - auto.
Qed.

Lemma fresh_chain_keys_apart earlier out : fresh_chain earlier out -> keys_apart out.
Proof.
  revert earlier. induction out as [|r out IH]; intros earlier Hf; [done|].
  destruct Hf as [Hr Hf]. split; [|by eapply IH].
  apply Forall_forall. intros x Hx.
  pose proof (fresh_chain_among _ _ _ Hf Hx) as H.
  rewrite key_among_snoc in H. apply orb_false_iff in H as [_ H].
  split; [done|by apply key_eq_false_sym].
Qed.

Lemma keys_apart_fresh_chain earlier out :
  keys_apart out ->
  Forall (fun x => key_among (row_key x) earlier = false) out ->
  fresh_chain earlier out.
Proof.
  revert earlier. induction out as [|r out IH]; intros earlier Hk He; [done|].
  destruct Hk as [Hr Hk]. apply Forall_cons in He as [Her He].
  split; [done|]. apply IH; [done|].
  apply Forall_forall. intros x Hx. rewrite key_among_snoc.
  rewrite Forall_forall in He, Hr. rewrite (He x Hx).
  by destruct (Hr x Hx) as [-> _].
Qed.

Lemma sort_rows_sorted_id l : StronglySorted key_le l -> sort_rows l = l.
Proof.
  intros Hs. symmetry. apply sorted_stable_unique; [done|apply sort_rows_sorted|].
  intros t. by rewrite sort_rows_stable.
Qed.

(** X27: merging the merged output again changes nothing. *)
Theorem merge_idempotent all_rows : merge (merge all_rows) = merge all_rows.
Proof.
  unfold merge.
  assert (dedup (sort_rows (dedup all_rows)) = sort_rows (dedup all_rows)) as ->.
  { rewrite (dedup_first_occurrences (sort_rows _)). apply fresh_chain_fixed.
    apply keys_apart_fresh_chain; [|by apply Forall_forall].
    apply (keys_apart_perm (dedup all_rows)); [by rewrite sort_rows_perm|].
    rewrite dedup_first_occurrences.
    apply (fresh_chain_keys_apart []), first_occurrences_fresh. }
  apply sort_rows_sorted_id, sort_rows_sorted.
Qed.

(** ** The properties on the sample statements *)

Lemma parse_deposits_prefix :
  parse_activity_statement (take 2 deposits_file)
  = Ok {[ "存款和取款" := [cash_record "1000.00"] ]}.
Proof. vm_compute. reflexivity. Qed.

Lemma parse_append_only_witness :
  exists sections2 l',
    parse_activity_statement (take 2 deposits_file ++ drop 2 deposits_file)
    = Ok sections2
    /\ sections2 !! "存款和取款" = Some ([cash_record "1000.00"] ++ l')%list.
Proof.
  exact (parse_append_only (take 2 deposits_file) (drop 2 deposits_file)
           _ "存款和取款" [cash_record "1000.00"] parse_deposits_prefix eq_refl).
Defined.

Lemma parse_mixed_file : parse_activity_statement mixed_file = Ok mixed_sections.
Proof. vm_compute. reflexivity. Qed.

Lemma parse_records_bind_header_names_witness :
  exists c0 c1 fields, (c0 :: c1 :: fields) ∈ mixed_file
    /\ Py.strip c0 = "存款和取款" /\ Py.strip c1 = "Header" /\ fields <> []
    /\ dom withdrawal_record = list_to_set (dedupe_headers fields).
Proof.
  apply (parse_records_bind_header_names mixed_file mixed_sections
           "存款和取款" [cash_record "1000.00"; withdrawal_record]).
  - exact parse_mixed_file.
  - reflexivity.
  - in_list.
Defined.

Lemma process_mixed_file :
  process_activity_statement py_float mixed_file ∅
  = Ok [sell_50_row; deposit_row; withdrawal_row].
Proof. vm_compute. reflexivity. Qed.

Lemma report_counts_witness :
  exists r1,
    convert_trades py_float (default [] (mixed_sections !! "交易")) ∅ = Ok r1
    /\ count_trades [sell_50_row; deposit_row; withdrawal_row] = List.length r1
    /\ count_cash [sell_50_row; deposit_row; withdrawal_row]
       = (List.length [sell_50_row; deposit_row; withdrawal_row] - List.length r1)%nat
    /\ (count_trades [sell_50_row; deposit_row; withdrawal_row]
        + count_cash [sell_50_row; deposit_row; withdrawal_row])%nat
       = List.length [sell_50_row; deposit_row; withdrawal_row].
Proof.
  exact (report_counts py_float mixed_file ∅ mixed_sections _
           parse_mixed_file process_mixed_file).
Defined.

Lemma converters_side_qty_witness :
  Forall (fun row => Side row ∈ side_enum /\ qty_ok (Qty row))
    [deposit_row; withdrawal_row].
Proof.
  apply (converters_side_qty py_float Cash ∅
           [cash_record "1000.00"; withdrawal_record]).
  vm_compute. reflexivity.
Defined.

Lemma dedup_app_self_witness :
  dedup ([deposit_row; withdrawal_row] ++ [deposit_row; withdrawal_row])
  = dedup [deposit_row; withdrawal_row].
Proof.
  apply dedup_app_self.
  apply Forall_cons; split; [discriminate|].
  apply Forall_cons; split; [discriminate|]. apply Forall_nil_2.
Defined.

Lemma stable_sort_is_sort_rows_witness :
  [deposit_row; withdrawal_row] = sort_rows [withdrawal_row; deposit_row].
Proof.
  apply stable_sort_is_sort_rows.
  - apply StronglySorted_cons. split.
    + apply Forall_cons; split; [reflexivity|apply Forall_nil_2].
    + apply StronglySorted_cons. split; [apply Forall_nil_2|constructor].
  - intros t. rewrite !filter_cons, !filter_nil.
    repeat case_decide; try done; simpl in *; subst; discriminate.
Defined.

(** ** The record of an accepted Data row *)

(** C7: when the parser, having read the rows [pre], accepts a Data row
    -- its tag is the current section and a non-empty header is active --
    it appends one record to the list of that section.  The record binds
    exactly the names of the active (renamed) header; a name at a position
    the row does not reach is bound to the empty string; the fields of the
    row beyond the header are ignored; and when the header names are
    distinct each is bound to the field at its position, or to the empty
    string past the end of the row. *)
Theorem parse_builds_padded_record pre st c0 c1 fields headers :
  parse_rows parser_init pre = Ok st ->
  Py.strip c1 = "Data" ->
  current_section st = Some (Py.strip c0) ->
  current_headers st = Some headers -> headers <> [] ->
  exists l rec,
    sections st !! Py.strip c0 = Some l
    /\ parse_activity_statement (pre ++ [c0 :: c1 :: fields])
       = Ok (<[Py.strip c0 := (l ++ [rec])%list]> (sections st))
    /\ dom rec = list_to_set headers
    /\ (forall i name, headers !! i = Some name ->
          (List.length fields <= i)%nat -> rec !! name = Some "")
    /\ parse_activity_statement
         (pre ++ [c0 :: c1 :: take (List.length headers) fields])
       = parse_activity_statement (pre ++ [c0 :: c1 :: fields])
    /\ (NoDup headers -> forall i name, headers !! i = Some name ->
          rec !! name = Some (default "" (fields !! i))).
Proof.
  intros Hpre Hd Hs Hh Hne.
  destruct (parse_rows_wf parser_init pre parser_init_wf) as (st' & Hst' & Hwf).
  assert (st' = st) as -> by congruence.
  destruct (Hwf _ Hs) as [l Hl].
  destruct headers as [|h hs]; [done|].
  assert (forall data, parse_activity_statement (pre ++ [c0 :: c1 :: data])
          = Ok (<[Py.strip c0 := (l ++ [make_record (h :: hs) data])%list]>
                  (sections st))) as Hparse.
  { intros data. unfold parse_activity_statement.
    rewrite parse_rows_app, Hpre. cbn [parse_rows].
    by rewrite (parse_row_data st c0 c1 data h hs l Hd Hs Hh Hl). }
  destruct (make_record_pads_and_truncates (h :: hs) fields)
    as (Hdom & Hpad & Htrunc & Hnd).
  exists l, (make_record (h :: hs) fields).
  split; [done|]. split; [apply Hparse|]. split; [done|]. split; [done|].
  split; [|done]. by rewrite !Hparse, <- Htrunc.
Qed.

Lemma parse_builds_padded_record_witness :
  exists l rec,
    sections after_cash_header !! Py.strip "存款和取款" = Some l
    /\ parse_activity_statement
         (take 1 deposits_file
          ++ ["存款和取款" :: " Data" :: ["USD"; "2025-01-02"]])
       = Ok (<[Py.strip "存款和取款" := (l ++ [rec])%list]>
               (sections after_cash_header))
    /\ dom rec = list_to_set cash_header
    /\ (forall i name, cash_header !! i = Some name ->
          (List.length ["USD"; "2025-01-02"] <= i)%nat -> rec !! name = Some "")
    /\ parse_activity_statement
         (take 1 deposits_file
          ++ ["存款和取款" :: " Data"
              :: take (List.length cash_header) ["USD"; "2025-01-02"]])
       = parse_activity_statement
           (take 1 deposits_file
            ++ ["存款和取款" :: " Data" :: ["USD"; "2025-01-02"]])
    /\ (NoDup cash_header -> forall i name, cash_header !! i = Some name ->
          rec !! name = Some (default "" (["USD"; "2025-01-02"] !! i))).
Proof.
  apply (parse_builds_padded_record (take 1 deposits_file) after_cash_header
           "存款和取款" " Data" ["USD"; "2025-01-02"] cash_header).
  - vm_compute. reflexivity.
  - reflexivity.
  - reflexivity.
  - reflexivity.
  - discriminate.
Defined.

(** A short row and a long row against the header of the deposits
    section: the missing cells read as empty, the cells in excess are
    dropped. *)
Lemma parse_short_and_long_rows :
  parse_activity_statement
    (take 1 deposits_file
     ++ [["存款和取款"; "Data"; "USD"; "2025-01-02"];
         ["存款和取款"; "Data"; "USD"; "2025-01-03"; "Deposit"; "5.00"; "x"; "y"]])
  = Ok {[ "存款和取款" :=
            [ {[ "货币" := "USD"; "结算日期" := "2025-01-02";
                 "描述" := ""; "金额" := "" ]};
              {[ "货币" := "USD"; "结算日期" := "2025-01-03";
                 "描述" := "Deposit"; "金额" := "5.00" ]} ] ]}.
Proof. vm_compute. reflexivity. Qed.

(** ** Two statements that share a trade *)

(** C2: two statements share a trade whose quantity cell reads "nan",
    with commissions 1.01 and 1.0: the rows are the same in Symbol, Side,
    Qty, Fill Price and Closing Time, and both are in the merged output,
    since a NaN quantity makes the key equal to no key.  With the quantity
    -50 in place of "nan" the output is the one row of the first
    statement, with its commission. *)
Theorem two_files_nan_trade_both_kept :
  main py_float [nan_trade_file_with "-1.01"; nan_trade_file_with "-1.0"] ∅
  = Ok [ with_commission (Num (S754_finite false 4548635623644201 (-52))) nan_row;
         with_commission (Num (S754_finite false 4503599627370496 (-52))) nan_row ]
  /\ main py_float [trade_file "-1.01"; trade_file "-1.0"] ∅ = Ok [sell_50_row].
Proof. split; vm_compute; reflexivity. Qed.

(** ** The rows deduplication keeps, field by field *)

Lemma key_eq_same_event r1 r2 :
  key_eq (row_key r1) (row_key r2) = true <-> same_event r1 r2.
Proof. rewrite key_eq_true. unfold same_event, Py.float_eq. simpl. tauto. Qed.

Lemma key_among_same_event r earlier :
  key_among (row_key r) earlier = true <->
  Exists (fun r' => same_event r' r) earlier.
Proof.
  rewrite key_among_true, Exists_exists.
  split; intros (r' & Hin & H); exists r'; split; try done;
    by apply key_eq_same_event.
Qed.

Lemma first_occurrences_keep_first earlier l :
  first_occurrences earlier l = keep_first earlier l.
Proof.
  revert earlier. induction l as [|r l IH]; intros earlier; [done|].
  cbn [first_occurrences keep_first].
  change (existsb _ earlier) with (key_among (row_key r) earlier).
  destruct (decide (Exists (fun r' => same_event r' r) earlier)) as [He|He].
  - apply key_among_same_event in He. rewrite He. apply IH.
  - destruct (key_among (row_key r) earlier) eqn:E.
    + by apply key_among_same_event in E.
    + f_equal. apply IH.
Qed.

(** X28: the merger keeps a row exactly when no row before it, in
    file-then-row order, has the same Symbol, Side, Fill Price and Closing
    Time and an equal Qty; Commission is not compared.  Of two rows that
    agree in these five fields only the first is kept, with its own
    commission; two rows that differ in one of them are both kept. *)
Theorem dedup_keeps_first_of_each_event all_rows :
  dedup all_rows = keep_first [] all_rows
  /\ (forall r1 r2, same_event r1 r2 ->
        dedup ([r1] ++ [r2]) = [r1] /\ merge ([r1] ++ [r2]) = [r1])
  /\ (forall r1 r2, ~ same_event r1 r2 -> dedup ([r1] ++ [r2]) = [r1; r2]).
Proof.
  rewrite dedup_first_occurrences. split; [apply first_occurrences_keep_first|].
  assert (forall r1 r2, dedup ([r1] ++ [r2])
            = if decide (same_event r1 r2) then [r1] else [r1; r2]) as Htwo.
  { intros r1 r2. rewrite dedup_first_occurrences, first_occurrences_keep_first.
    cbn [app keep_first]. rewrite decide_False by (by intros ?%Exists_nil).
    destruct (decide (same_event r1 r2)) as [He|He].
    - rewrite decide_True; [done|]. by apply Exists_cons_hd.
    - rewrite decide_False; [done|]. simpl.
      intros [H|H%Exists_nil]%Exists_cons; done. }
  split.
  - intros r1 r2 He. unfold merge. rewrite Htwo, decide_True by done. done.
  - intros r1 r2 He. by rewrite Htwo, decide_False.
Qed.
